(** * LTC2990 power monitor driver: a shallow embedding and its properties

    The development follows [drivers/hwmon/ltc2990.c].  C integers are
    modelled as [Z] with the wrap-around of their type written out, the
    kernel services the driver calls (SMBus transfers, sysfs, device tree,
    logging) are an interface whose answers may depend on everything that
    happened before, and the driver functions are programs of a small
    state monad over the driver data and the chronological log of the
    calls made to the kernel. *)

From Stdlib Require Import ZArith List Ascii String Bool Lia DecimalString.
Import ListNotations.

Local Open Scope string_scope.
Local Open Scope list_scope.
Local Open Scope Z_scope.

(** ** Machine integers *)

Module CInt.

(** [int] / [s32]: two's-complement wrap-around to 32 bits (the kernel is
    built with wrapping signed arithmetic). *)
Definition s32 (z : Z) : Z := (z + 2 ^ 31) mod 2 ^ 32 - 2 ^ 31.

(** [u32] and [u8] conversions. *)
Definition u32 (z : Z) : Z := z mod 2 ^ 32.
Definition u8 (z : Z) : Z := z mod 2 ^ 8.

(** [BIT(n)] of [linux/bits.h]. *)
Definition BIT (n : Z) : Z := Z.shiftl 1 n.

Definition in_s32 (z : Z) : Prop := - 2 ^ 31 <= z < 2 ^ 31.

End CInt.

Import CInt.

(** ** Register map and constants of the driver *)

Definition LTC2990_STATUS : Z := 0x00.
Definition LTC2990_CONTROL : Z := 0x01.
Definition LTC2990_TRIGGER : Z := 0x02.
Definition LTC2990_TINT_MSB : Z := 0x04.
Definition LTC2990_V1_MSB : Z := 0x06.
Definition LTC2990_V2_MSB : Z := 0x08.
Definition LTC2990_V3_MSB : Z := 0x0A.
Definition LTC2990_V4_MSB : Z := 0x0C.
Definition LTC2990_VCC_MSB : Z := 0x0E.

Definition LTC2990_CONTROL_KELVIN : Z := BIT 7.
Definition LTC2990_CONTROL_SINGLE : Z := BIT 6.
Definition LTC2990_CONTROL_MEASURE_ALL : Z := Z.shiftl 0x3 3.
Definition LTC2990_CONTROL_MODE_DEFAULT : Z := 0x06.
Definition LTC2990_CONTROL_MODE_MAX : Z := 0x07.

Definition LTC2990_IN0 : Z := BIT 0.
Definition LTC2990_IN1 : Z := BIT 1.
Definition LTC2990_IN2 : Z := BIT 2.
Definition LTC2990_IN3 : Z := BIT 3.
Definition LTC2990_IN4 : Z := BIT 4.
Definition LTC2990_CURR1 : Z := BIT 5.
Definition LTC2990_CURR2 : Z := BIT 6.
Definition LTC2990_TEMP1 : Z := BIT 7.
Definition LTC2990_TEMP2 : Z := BIT 8.
Definition LTC2990_TEMP3 : Z := BIT 9.

(** The ten channel identifiers the driver hands to its attributes. *)
Definition ltc2990_channels : list Z :=
  [ LTC2990_IN0; LTC2990_IN1; LTC2990_IN2; LTC2990_IN3; LTC2990_IN4;
    LTC2990_CURR1; LTC2990_CURR2;
    LTC2990_TEMP1; LTC2990_TEMP2; LTC2990_TEMP3 ].

(** [ltc2990_attrs_ena]: per mode, the mask of the attributes that exist. *)
Definition ltc2990_attrs_ena : list Z :=
  [ Z.lor (Z.lor LTC2990_IN1 LTC2990_IN2) LTC2990_TEMP3;
    Z.lor LTC2990_CURR1 LTC2990_TEMP3;
    Z.lor (Z.lor LTC2990_CURR1 LTC2990_IN3) LTC2990_IN4;
    Z.lor (Z.lor LTC2990_TEMP2 LTC2990_IN3) LTC2990_IN4;
    Z.lor LTC2990_TEMP2 LTC2990_CURR2;
    Z.lor LTC2990_TEMP2 LTC2990_TEMP3;
    Z.lor LTC2990_CURR1 LTC2990_CURR2;
    Z.lor (Z.lor (Z.lor LTC2990_IN1 LTC2990_IN2) LTC2990_IN3) LTC2990_IN4 ].

(** Error numbers of [uapi/asm-generic/errno-base.h]. *)
Definition EIO : Z := 5.
Definition ENOMEM : Z := 12.
Definition ENODEV : Z := 19.
Definition EINVAL : Z := 22.
Definition ERANGE : Z := 34.

(** File permission bits of [linux/stat.h]. *)
Definition S_IRUGO : Z := 0x124.
Definition S_IWUSR : Z := 0x80.

(** ** Value codec *)

(** [ltc2990_voltage_to_int]: convert raw register value to sign-extended
    integer in 16-bit range. *)
Definition ltc2990_voltage_to_int (raw : Z) : Z :=
  if negb (Z.land raw (BIT 14) =? 0)
  then s32 (Z.shiftl (s32 (- s32 (0x4000 - Z.land raw 0x3FFF))) 2)
  else s32 (Z.shiftl (Z.land raw 0x3FFF) 2).

(** The decoding in the words of the specification: the field made of bits
    0 to 14 read as a two's-complement number whose sign is bit 14, shifted
    left by two. *)
Definition decode_signed14_spec (raw : Z) : Z :=
  let field := raw mod 2 ^ 15 in
  let signed := if Z.testbit raw 14 then field - 2 ^ 15 else field in
  signed * 2 ^ 2.

(** First [switch] of [ltc2990_get_value]: the register of a channel;
    [None] is the [default:] label. *)
Definition ltc2990_get_value_reg (index : Z) : option Z :=
  if index =? LTC2990_IN0 then Some LTC2990_VCC_MSB
  else if (index =? LTC2990_IN1) || (index =? LTC2990_CURR1)
          || (index =? LTC2990_TEMP2) then Some LTC2990_V1_MSB
  else if index =? LTC2990_IN2 then Some LTC2990_V2_MSB
  else if (index =? LTC2990_IN3) || (index =? LTC2990_CURR2)
          || (index =? LTC2990_TEMP3) then Some LTC2990_V3_MSB
  else if index =? LTC2990_IN4 then Some LTC2990_V4_MSB
  else if index =? LTC2990_TEMP1 then Some LTC2990_TINT_MSB
  else None.

(** Second [switch] of [ltc2990_get_value]: the value stored in [*result]
    for the word [val] read from the bus; [None] is the [default:] label.
    Every intermediate result is an [int]. *)
Definition ltc2990_get_value_conv (index val : Z) : option Z :=
  if (index =? LTC2990_TEMP1) || (index =? LTC2990_TEMP2)
     || (index =? LTC2990_TEMP3) then
    (* temp, 0.0625 degrees/LSB, 13-bit *)
    let val := s32 (Z.shiftl (Z.land val 0x1FFF) 3) in
    Some (s32 (Z.shiftr (s32 (val * 1000)) 7))
  else if (index =? LTC2990_CURR1) || (index =? LTC2990_CURR2) then
    (* Vx-Vy, 19.42uV/LSB *)
    Some (s32 (Z.quot (s32 (ltc2990_voltage_to_int val * 1942)) (4 * 100)))
  else if index =? LTC2990_IN0 then
    (* Vcc, 305.18uV/LSB, 2.5V offset *)
    Some (s32 (s32 (Z.quot (s32 (ltc2990_voltage_to_int val * 30518))
                           (4 * 100 * 1000)) + 2500))
  else if (index =? LTC2990_IN1) || (index =? LTC2990_IN2)
          || (index =? LTC2990_IN3) || (index =? LTC2990_IN4) then
    (* Vx: 305.18uV/LSB *)
    Some (s32 (Z.quot (s32 (ltc2990_voltage_to_int val * 30518))
                      (4 * 100 * 1000)))
  else None.

(** ** Driver data, attributes and the kernel interface *)

(** [struct ltc2990_data].  There is one client, whose transfers appear in
    the log below, as do the operations on [update_lock]; [mode] is a
    [u32]. *)
Record ltc2990_data : Type := { mode : Z }.

(** [struct sensor_device_attribute], as far as the driver uses it. *)
Record sensor_device_attribute : Type :=
  { attr_name : string; attr_mode : Z; index : Z }.

(** [struct attribute_group]: the attributes and the optional
    [is_visible] callback, which receives the driver data of the device,
    the attribute and its position. *)
Record attribute_group : Type :=
  { attrs : list sensor_device_attribute;
    is_visible :
      option (ltc2990_data -> sensor_device_attribute -> Z -> option Z) }.

(** A pointer that may carry an error number ([linux/err.h]). *)
Inductive err_ptr : Type :=
| VALID_PTR
| ERR_PTR (error : Z).

Definition PTR_ERR_OR_ZERO (p : err_ptr) : Z :=
  match p with
  | ERR_PTR e => e
  | VALID_PTR => 0
  end.

(** What the driver asks of the kernel, in the order it happened. *)
Inductive event : Type :=
| EvReadWord (command : Z) (val : Z)
| EvWriteByte (command value : Z) (ret : Z)
| EvDevErr (msg : string)
| EvDevWarn (msg : string) (args : list Z)
| EvMutexInit
| EvMutexLock
| EvMutexUnlock
| EvKzalloc (ok : bool)
| EvSysfsUpdateGroup (files : option (list (string * Z))) (ret : Z)
| EvHwmonRegister (files : option (list (string * Z))) (dev : err_ptr).

(** The kernel services used by the driver.  Their answers are not fixed
    by the driver: a transfer result may depend on all that happened
    before, so each service that touches the device or the system is
    given the log so far. *)
Class Kernel : Type :=
  { device_node : Type;
    (* i2c_smbus_read_word_swapped: the word read, or a negative errno *)
    smbus_read_word : list event -> Z -> Z;
    (* i2c_smbus_write_byte_data: 0, or a negative errno *)
    smbus_write_byte : list event -> Z -> Z -> Z;
    (* kstrtoul(buf, base, &res): the return code and the value stored
       in [res] when the code is 0 *)
    kstrtoul : string -> Z -> Z * Z;
    (* sysfs_update_group: 0, or a negative errno *)
    sysfs_update_ret : list event -> Z;
    (* i2c_check_functionality for byte-data and word-data transfers *)
    check_functionality : bool;
    (* devm_kzalloc: whether memory was obtained *)
    kzalloc_ok : list event -> bool;
    (* of_property_read_u32(node, name, &out): the return code and the
       value stored in [out] when the code is 0 *)
    of_property_read_u32 : device_node -> string -> Z * Z;
    (* devm_hwmon_device_register_with_groups *)
    hwmon_register_ret : list event -> err_ptr }.

(** ** The state monad of the driver *)

Record world : Type := { data : ltc2990_data; klog : list event }.

Definition M (A : Type) : Type := world -> A * world.

Definition pure {A : Type} (a : A) : M A := fun w => (a, w).

Definition bind {A B : Type} (m : M A) (k : A -> M B) : M B :=
  fun w => let (a, w') := m w in k a w'.

Declare Scope drv_scope.
Delimit Scope drv_scope with drv.
Notation "x <- m ;; k" := (bind m (fun x => k))
  (at level 61, m at next level, right associativity) : drv_scope.
Notation "m ;; k" := (bind m (fun _ => k))
  (at level 61, right associativity) : drv_scope.
Local Open Scope drv_scope.

Definition get_data : M ltc2990_data := fun w => (data w, w).

Definition put_mode (m : Z) : M unit :=
  fun w => (tt, {| data := {| mode := m |}; klog := klog w |}).

Definition emit (e : event) : M unit :=
  fun w => (tt, {| data := data w; klog := klog w ++ [e] |}).

(** The line feed that ends the strings the driver prints. *)
Definition LF : string := String "010"%char EmptyString.

(** [snprintf(buf, PAGE_SIZE, "%d\n", v)]: the text written and the
    count returned; at most twelve characters, well below [PAGE_SIZE]. *)
Definition snprintf_d (v : Z) : string * Z :=
  let text := (NilZero.string_of_int (Z.to_int (s32 v)) ++ LF)%string in
  (text, Z.of_nat (String.length text)).

(** ** Attributes and their visibility *)

(** Reading a C array of [int]: an index outside the array is undefined
    behaviour, [None] here. *)
Definition array_get (a : list Z) (i : Z) : option Z :=
  if i <? 0 then None else nth_error a (Z.to_nat i).

Definition sensor_dev_attr_temp1_input : sensor_device_attribute :=
  {| attr_name := "temp1_input"; attr_mode := S_IRUGO; index := LTC2990_TEMP1 |}.
Definition sensor_dev_attr_temp2_input : sensor_device_attribute :=
  {| attr_name := "temp2_input"; attr_mode := S_IRUGO; index := LTC2990_TEMP2 |}.
Definition sensor_dev_attr_temp3_input : sensor_device_attribute :=
  {| attr_name := "temp3_input"; attr_mode := S_IRUGO; index := LTC2990_TEMP3 |}.
Definition sensor_dev_attr_curr1_input : sensor_device_attribute :=
  {| attr_name := "curr1_input"; attr_mode := S_IRUGO; index := LTC2990_CURR1 |}.
Definition sensor_dev_attr_curr2_input : sensor_device_attribute :=
  {| attr_name := "curr2_input"; attr_mode := S_IRUGO; index := LTC2990_CURR2 |}.
Definition sensor_dev_attr_in0_input : sensor_device_attribute :=
  {| attr_name := "in0_input"; attr_mode := S_IRUGO; index := LTC2990_IN0 |}.
Definition sensor_dev_attr_in1_input : sensor_device_attribute :=
  {| attr_name := "in1_input"; attr_mode := S_IRUGO; index := LTC2990_IN1 |}.
Definition sensor_dev_attr_in2_input : sensor_device_attribute :=
  {| attr_name := "in2_input"; attr_mode := S_IRUGO; index := LTC2990_IN2 |}.
Definition sensor_dev_attr_in3_input : sensor_device_attribute :=
  {| attr_name := "in3_input"; attr_mode := S_IRUGO; index := LTC2990_IN3 |}.
Definition sensor_dev_attr_in4_input : sensor_device_attribute :=
  {| attr_name := "in4_input"; attr_mode := S_IRUGO; index := LTC2990_IN4 |}.
Definition sensor_dev_attr_mode : sensor_device_attribute :=
  {| attr_name := "mode"; attr_mode := Z.lor S_IRUGO S_IWUSR; index := 0 |}.

(** [ltc2990_attrs_visible]: the mode of the file, 0 for none. *)
Definition ltc2990_attrs_visible
    (d : ltc2990_data) (attr : sensor_device_attribute) (n : Z) : option Z :=
  match array_get ltc2990_attrs_ena (mode d) with
  | Some ena =>
      Some (if negb (Z.land ena (index attr) =? 0) then attr_mode attr else 0)
  | None => None
  end.

(** The mode table read as a set: the channels whose bit is set in the
    entry of mode [m]. *)
Definition enabled_channels (m : Z) : option (list Z) :=
  match array_get ltc2990_attrs_ena m with
  | Some ena =>
      Some (filter (fun c => negb (Z.land ena c =? 0)) ltc2990_channels)
  | None => None
  end.

Definition ltc2990_attrs : list sensor_device_attribute :=
  [ sensor_dev_attr_temp2_input; sensor_dev_attr_temp3_input;
    sensor_dev_attr_curr1_input; sensor_dev_attr_curr2_input;
    sensor_dev_attr_in1_input; sensor_dev_attr_in2_input;
    sensor_dev_attr_in3_input; sensor_dev_attr_in4_input ].

Definition ltc2990_group : attribute_group :=
  {| attrs := ltc2990_attrs; is_visible := Some ltc2990_attrs_visible |}.

Definition ltc2990_static_attrs : list sensor_device_attribute :=
  [ sensor_dev_attr_temp1_input; sensor_dev_attr_in0_input;
    sensor_dev_attr_mode ].

Definition ltc2990_static_group : attribute_group :=
  {| attrs := ltc2990_static_attrs; is_visible := None |}.

Definition ltc2990_groups : list attribute_group :=
  [ ltc2990_group; ltc2990_static_group ].

(** How sysfs populates a group ([fs/sysfs/group.c]): an attribute gets
    its own mode when the group has no [is_visible], else the mode the
    callback returns, and no file when that mode is 0. *)
Fixpoint sysfs_create_files
    (vis : option (ltc2990_data -> sensor_device_attribute -> Z -> option Z))
    (d : ltc2990_data) (n : Z) (l : list sensor_device_attribute)
  : option (list (string * Z)) :=
  match l with
  | [] => Some []
  | a :: l' =>
      match (match vis with Some f => f d a n | None => Some (attr_mode a) end)
      with
      | None => None
      | Some m =>
          match sysfs_create_files vis d (n + 1) l' with
          | None => None
          | Some files =>
              Some (if m =? 0 then files else (attr_name a, m) :: files)
          end
      end
  end.

Definition sysfs_group_files (grp : attribute_group) (d : ltc2990_data)
  : option (list (string * Z)) :=
  sysfs_create_files (is_visible grp) d 0 (attrs grp).

Fixpoint sysfs_groups_files (grps : list attribute_group) (d : ltc2990_data)
  : option (list (string * Z)) :=
  match grps with
  | [] => Some []
  | g :: grps' =>
      match sysfs_group_files g d, sysfs_groups_files grps' d with
      | Some fs, Some fs' => Some (fs ++ fs')
      | _, _ => None
      end
  end.

(** The values written to the control register, in the order of a log. *)
Fixpoint control_writes (l : list event) : list Z :=
  match l with
  | [] => []
  | EvWriteByte command value _ :: l' =>
      if command =? LTC2990_CONTROL then value :: control_writes l'
      else control_writes l'
  | _ :: l' => control_writes l'
  end.

(** Byte writes and error messages, the only events of
    [ltc2990_write_control_trigger]. *)
Definition write_or_err (e : event) : bool :=
  match e with
  | EvWriteByte _ _ _ | EvDevErr _ => true
  | _ => false
  end.

(** The operations on [update_lock]. *)
Definition is_mutex_event (e : event) : bool :=
  match e with
  | EvMutexInit | EvMutexLock | EvMutexUnlock => true
  | _ => false
  end.

(** The attributes of a list whose channel is among [chans], as the files
    sysfs would show for them. *)
Definition files_of_channels
    (chans : list Z) (l : list sensor_device_attribute) : list (string * Z) :=
  map (fun a => (attr_name a, attr_mode a))
      (filter (fun a => existsb (Z.eqb (index a)) chans) l).

(** The warnings of [dev_warn]. *)
Definition is_warning (e : event) : bool :=
  match e with
  | EvDevWarn _ _ => true
  | _ => false
  end.

(** The events a run added to the log: what follows the log it started
    from. *)
Definition new_events (w w' : world) : list event :=
  skipn (List.length (klog w)) (klog w').

(** ** The driver *)

Section Driver.

Context {K : Kernel}.

Definition i2c_smbus_read_word_swapped (command : Z) : M Z :=
  fun w =>
    let val := smbus_read_word (klog w) command in
    (val, {| data := data w; klog := klog w ++ [EvReadWord command val] |}).

Definition i2c_smbus_write_byte_data (command value : Z) : M Z :=
  fun w =>
    let ret := smbus_write_byte (klog w) command value in
    (ret, {| data := data w;
             klog := klog w ++ [EvWriteByte command value ret] |}).

Definition dev_err (msg : string) : M unit := emit (EvDevErr msg).
Definition dev_warn (msg : string) (args : list Z) : M unit :=
  emit (EvDevWarn msg args).
Definition mutex_init : M unit := emit EvMutexInit.
Definition mutex_lock : M unit := emit EvMutexLock.
Definition mutex_unlock : M unit := emit EvMutexUnlock.

(** [devm_kzalloc]: on success the driver data is all zero. *)
Definition devm_kzalloc : M bool :=
  fun w =>
    let ok := kzalloc_ok (klog w) in
    (ok, {| data := if ok then {| mode := 0 |} else data w;
            klog := klog w ++ [EvKzalloc ok] |}).

Definition sysfs_update_group (grp : attribute_group) : M Z :=
  fun w =>
    let ret := sysfs_update_ret (klog w) in
    (ret, {| data := data w;
             klog := klog w
               ++ [EvSysfsUpdateGroup (sysfs_group_files grp (data w)) ret] |}).

Definition devm_hwmon_device_register_with_groups
    (grps : list attribute_group) : M err_ptr :=
  fun w =>
    let dev := hwmon_register_ret (klog w) in
    (dev, {| data := data w;
             klog := klog w
               ++ [EvHwmonRegister (sysfs_groups_files grps (data w)) dev] |}).

(** [ltc2990_get_value]: return the converted value from the given
    register.  [result] is the content of [*result] before the call; the
    second component returned is its content after. *)
Definition ltc2990_get_value (index : Z) (result : Z) : M (Z * Z) :=
  match ltc2990_get_value_reg index with
  | None => pure (- EINVAL, result)
  | Some reg =>
      val <- i2c_smbus_read_word_swapped reg ;;
      if val <? 0 then pure (val, result)
      else
        match ltc2990_get_value_conv index val with
        | Some v => pure (0, v)
        | None => pure (- EINVAL, result)
        end
  end.

Definition ltc2990_write_control_trigger : M Z :=
  d <- get_data ;;
  (* Setup continuous mode *)
  ret <- i2c_smbus_write_byte_data LTC2990_CONTROL
           (u8 (Z.lor LTC2990_CONTROL_MEASURE_ALL (mode d))) ;;
  if ret <? 0 then
    dev_err ("Error: Failed to set control mode." ++ LF) ;;
    pure ret
  else
    (* Trigger once to start continuous conversion *)
    ret <- i2c_smbus_write_byte_data LTC2990_TRIGGER 0x01 ;;
    if ret <? 0 then
      dev_err ("Error: Failed to start acquisition." ++ LF) ;;
      pure ret
    else pure 0.

(** [ltc2990_show_value]; [value] is the indeterminate initial content
    of the local of that name, [buf] the page handed in by sysfs. *)
Definition ltc2990_show_value
    (attr : sensor_device_attribute) (buf : string) (value : Z)
  : M (Z * string) :=
  r <- ltc2990_get_value (index attr) value ;;
  let '(ret, value) := r in
  if ret <? 0 then pure (ret, buf)
  else let '(text, n) := snprintf_d value in pure (n, text).

Definition ltc2990_get_mode (buf : string) : M (Z * string) :=
  d <- get_data ;;
  let '(text, n) := snprintf_d (mode d) in pure (n, text).

(** [ltc2990_set_mode]: every path after [mutex_lock] leaves through
    the [abort] label. *)
Definition ltc2990_set_mode (buf : string) (count : Z) : M Z :=
  let '(ret, mode) := kstrtoul buf 10 in
  if negb (ret =? 0) then pure ret
  else if mode >? LTC2990_CONTROL_MODE_MAX then pure (- EINVAL)
  else
    mutex_lock ;;
    put_mode (u32 mode) ;;
    ret <- (ret <- ltc2990_write_control_trigger ;;
            if ret <? 0 then pure ret
            else
              ret <- sysfs_update_group ltc2990_group ;;
              if ret <? 0 then pure ret
              else pure (s32 count)) ;;
    (* abort: *)
    mutex_unlock ;;
    pure ret.

Definition ltc2990_i2c_probe (of_node : option device_node) : M Z :=
  if negb check_functionality then pure (- ENODEV)
  else
    ok <- devm_kzalloc ;;
    if negb ok then pure (- ENOMEM)
    else
      match of_node with
      | None => put_mode LTC2990_CONTROL_MODE_DEFAULT
      | Some node =>
          let '(ret, out) := of_property_read_u32 node "mode" in
          if negb (ret =? 0) then put_mode LTC2990_CONTROL_MODE_DEFAULT
          else put_mode (u32 out)
      end ;;
      d <- get_data ;;
      (if mode d >? LTC2990_CONTROL_MODE_MAX then
         dev_warn ("Warning: Mode %d out of range, defaulting to %d." ++ LF)
                  [s32 (mode d); LTC2990_CONTROL_MODE_DEFAULT] ;;
         put_mode LTC2990_CONTROL_MODE_DEFAULT
       else pure tt) ;;
      ret <- ltc2990_write_control_trigger ;;
      if ret <? 0 then pure ret
      else
        mutex_init ;;
        hwmon_dev <- devm_hwmon_device_register_with_groups ltc2990_groups ;;
        pure (PTR_ERR_OR_ZERO hwmon_dev).

(** [ltc2990_i2c_probe] in two parts, to speak of the driver data between
    them.  First its statements up to the reading of the "mode" property
    into [data->mode]: the code to return at once, if any. *)
Definition probe_setup (of_node : option device_node) : M (option Z) :=
  if negb check_functionality then pure (Some (- ENODEV))
  else
    ok <- devm_kzalloc ;;
    if negb ok then pure (Some (- ENOMEM))
    else
      match of_node with
      | None => put_mode LTC2990_CONTROL_MODE_DEFAULT
      | Some node =>
          let '(ret, out) := of_property_read_u32 node "mode" in
          if negb (ret =? 0) then put_mode LTC2990_CONTROL_MODE_DEFAULT
          else put_mode (u32 out)
      end ;;
      pure None.

(** Then its statements from the range check on. *)
Definition probe_finish : M Z :=
  d <- get_data ;;
  (if mode d >? LTC2990_CONTROL_MODE_MAX then
     dev_warn ("Warning: Mode %d out of range, defaulting to %d." ++ LF)
              [s32 (mode d); LTC2990_CONTROL_MODE_DEFAULT] ;;
     put_mode LTC2990_CONTROL_MODE_DEFAULT
   else pure tt) ;;
  ret <- ltc2990_write_control_trigger ;;
  if ret <? 0 then pure ret
  else
    mutex_init ;;
    hwmon_dev <- devm_hwmon_device_register_with_groups ltc2990_groups ;;
    pure (PTR_ERR_OR_ZERO hwmon_dev).

(** The mode the device tree gives to [ltc2990_i2c_probe], before the
    range check: the default when there is no node or the property cannot
    be read, else the [u32] read. *)
Definition configured_mode (of_node : option device_node) : Z :=
  match of_node with
  | None => LTC2990_CONTROL_MODE_DEFAULT
  | Some node =>
      let '(ret, out) := of_property_read_u32 node "mode" in
      if negb (ret =? 0) then LTC2990_CONTROL_MODE_DEFAULT else u32 out
  end.

End Driver.

(** ** A bench kernel to run the driver on *)

Module Bench.

(** Decimal digits with an optional final line feed, as [kstrtoul]
    accepts them in base 10. *)
Fixpoint digits (s : string) (acc : Z) : option Z :=
  match s with
  | EmptyString => Some acc
  | String c s' =>
      let n := Z.of_nat (nat_of_ascii c) in
      if (48 <=? n) && (n <=? 57) then digits s' (10 * acc + (n - 48))
      else if (n =? 10) && (String.length s' =? 0)%nat then Some acc
      else None
  end.

Definition decimal (buf : string) (base : Z) : Z * Z :=
  match buf with
  | EmptyString => (- EINVAL, 0)
  | String c _ =>
      if Z.of_nat (nat_of_ascii c) =? 10 then (- EINVAL, 0)
      else
        match digits buf 0 with
        | Some v => if v <? 2 ^ 64 then (0, v) else (- ERANGE, 0)
        | None => (- EINVAL, 0)
        end
  end.

(** Device-tree nodes as property lists. *)
Fixpoint property (node : list (string * Z)) (name : string) : Z * Z :=
  match node with
  | [] => (- EINVAL, 0)
  | (k, v) :: node' =>
      if String.eqb k name then (0, v) else property node' name
  end.

(** A chip whose result registers all hold [word], whose control and
    trigger writes answer [control_ret] and [trigger_ret], on a system
    where everything else succeeds. *)
Definition kernel (word control_ret trigger_ret : Z) : Kernel :=
  {| device_node := list (string * Z);
     smbus_read_word := fun _ _ => word;
     smbus_write_byte := fun _ command _ =>
       if command =? LTC2990_CONTROL then control_ret else trigger_ret;
     kstrtoul := decimal;
     sysfs_update_ret := fun _ => 0;
     check_functionality := true;
     kzalloc_ok := fun _ => true;
     of_property_read_u32 := property;
     hwmon_register_ret := fun _ => VALID_PTR |}.

(** The same chip on a system where the adapter may lack the transfers,
    memory may be short, the group update answers [update_ret] and the
    hwmon registration answers [dev]. *)
Definition system (word control_ret trigger_ret update_ret : Z)
    (functionality memory : bool) (dev : err_ptr) : Kernel :=
  {| device_node := list (string * Z);
     smbus_read_word := fun _ _ => word;
     smbus_write_byte := fun _ command _ =>
       if command =? LTC2990_CONTROL then control_ret else trigger_ret;
     kstrtoul := decimal;
     sysfs_update_ret := fun _ => update_ret;
     check_functionality := functionality;
     kzalloc_ok := fun _ => memory;
     of_property_read_u32 := property;
     hwmon_register_ret := fun _ => dev |}.

Definition boot : world := {| data := {| mode := 0 |}; klog := [] |}.

Definition running (m : Z) : world :=
  {| data := {| mode := m |}; klog := [] |}.

End Bench.

(** * Properties *)

(** ** Machine integers *)

Section CIntFacts.

Lemma s32_id z : in_s32 z -> s32 z = z.
Proof.
  unfold in_s32, s32; intros Hz.
  rewrite Z.mod_small; lia.
Qed.

Lemma u32_id z : 0 <= z < 2 ^ 32 -> u32 z = z.
Proof. intros; unfold u32; apply Z.mod_small; assumption. Qed.

Lemma u8_id z : 0 <= z < 2 ^ 8 -> u8 z = z.
Proof. intros; unfold u8; apply Z.mod_small; assumption. Qed.

(** Masking with [n] low one bits keeps the value below [2 ^ n], also
    for a negative (two's complement) argument. *)
Lemma land_ones_bound a n : 0 <= n -> 0 <= Z.land a (Z.ones n) < 2 ^ n.
Proof.
  intros Hn; rewrite Z.land_ones by assumption.
  apply Z.mod_pos_bound, Z.pow_pos_nonneg; lia.
Qed.

(** Testing a single bit through a mask. *)
Lemma land_bit a n :
  0 <= n -> Z.land a (BIT n) = if Z.testbit a n then 2 ^ n else 0.
Proof.
  intros Hn; unfold BIT.
  rewrite Z.shiftl_mul_pow2, Z.mul_1_l by assumption.
  apply Z.bits_inj'; intros i Hi.
  rewrite Z.land_spec, Z.pow2_bits_eqb by assumption.
  destruct (Z.eqb_spec n i) as [->|Hne].
  - destruct (Z.testbit a i); cbn.
    + rewrite Z.pow2_bits_eqb, Z.eqb_refl by assumption; reflexivity.
    + rewrite Z.bits_0; reflexivity.
  - rewrite andb_false_r.
    destruct (Z.testbit a n).
    + rewrite Z.pow2_bits_eqb by assumption.
      symmetry; apply Z.eqb_neq; assumption.
    + rewrite Z.bits_0; reflexivity.
Qed.

Lemma land_bit_nonzero a n :
  0 <= n -> negb (Z.land a (BIT n) =? 0) = Z.testbit a n.
Proof.
  intros Hn; rewrite land_bit by assumption.
  pose proof (Z.pow_pos_nonneg 2 n ltac:(lia) Hn).
  destruct (Z.testbit a n); cbn.
  - destruct (Z.eqb_spec (2 ^ n) 0); [lia | reflexivity].
  - reflexivity.
Qed.

(** The low [n + 1] bits are bit [n] on top of the low [n] bits. *)
Lemma mod_pow2_succ a n :
  0 <= n ->
  a mod 2 ^ (n + 1) = (if Z.testbit a n then 2 ^ n else 0) + a mod 2 ^ n.
Proof.
  intros Hn.
  pose proof (Z.pow_pos_nonneg 2 n ltac:(lia) Hn) as Hp.
  rewrite Z.pow_add_r, Z.pow_1_r by lia.
  rewrite Z.rem_mul_r by lia.
  pose proof (Z.testbit_spec' a n Hn) as Hb.
  destruct (Z.testbit a n); cbn [Z.b2z] in Hb; rewrite <- Hb; lia.
Qed.

(** C division by a positive constant never grows the magnitude. *)
Lemma quot_bound a b lo hi :
  0 < b -> lo <= 0 <= hi -> lo <= a <= hi -> lo <= Z.quot a b <= hi.
Proof.
  intros Hb Hz Ha.
  destruct (Z.le_gt_cases 0 a) as [Hpos|Hneg].
  - rewrite Z.quot_div_nonneg by lia.
    pose proof (Z.div_pos a b Hpos Hb).
    pose proof (Z.div_le_upper_bound a b a Hb ltac:(nia)).
    lia.
  - replace a with (- (- a)) by lia.
    rewrite Z.quot_opp_l by lia.
    rewrite Z.quot_div_nonneg by lia.
    pose proof (Z.div_pos (- a) b ltac:(lia) Hb).
    pose proof (Z.div_le_upper_bound (- a) b (- a) Hb ltac:(nia)).
    lia.
Qed.

End CIntFacts.

(** ** Value codec *)

Section CodecFacts.

Lemma voltage_to_int_unfold raw :
  ltc2990_voltage_to_int raw =
  if Z.testbit raw 14
  then (raw mod 2 ^ 14 - 2 ^ 14) * 4
  else raw mod 2 ^ 14 * 4.
Proof.
  unfold ltc2990_voltage_to_int.
  rewrite land_bit_nonzero by lia.
  change 0x3FFF with (Z.ones 14).
  pose proof (land_ones_bound raw 14 ltac:(lia)) as Hb.
  rewrite Z.land_ones in * by lia.
  change (2 ^ 14) with 16384 in *.
  destruct (Z.testbit raw 14).
  - rewrite (s32_id (0x4000 - _)) by (unfold in_s32; lia).
    rewrite (s32_id (- _)) by (unfold in_s32; lia).
    rewrite Z.shiftl_mul_pow2 by lia.
    rewrite s32_id by (unfold in_s32; lia).
    lia.
  - rewrite Z.shiftl_mul_pow2 by lia.
    rewrite s32_id by (unfold in_s32; lia).
    lia.
Qed.

Lemma voltage_to_int_range raw :
  -65536 <= ltc2990_voltage_to_int raw <= 65532.
Proof.
  rewrite voltage_to_int_unfold.
  pose proof (Z.mod_pos_bound raw (2 ^ 14) ltac:(lia)).
  destruct (Z.testbit raw 14); lia.
Qed.

(** The temperature arithmetic stays inside [int]. *)
Lemma temp_no_wrap val :
  s32 (Z.shiftr (s32 (s32 (Z.shiftl (Z.land val 0x1FFF) 3) * 1000)) 7)
  = Z.shiftr (Z.shiftl (Z.land val 0x1FFF) 3 * 1000) 7.
Proof.
  change 0x1FFF with (Z.ones 13).
  pose proof (land_ones_bound val 13 ltac:(lia)) as Hb.
  change (2 ^ 13) with 8192 in Hb.
  set (f := Z.land val (Z.ones 13)) in *.
  rewrite Z.shiftl_mul_pow2 by lia. change (2 ^ 3) with 8.
  rewrite (s32_id (f * 8)) by (unfold in_s32; lia).
  rewrite (s32_id (f * 8 * 1000)) by (unfold in_s32; lia).
  rewrite Z.shiftr_div_pow2 by lia. change (2 ^ 7) with 128.
  apply s32_id. unfold in_s32.
  pose proof (Z.div_pos (f * 8 * 1000) 128 ltac:(lia) ltac:(lia)).
  pose proof (Z.div_le_upper_bound (f * 8 * 1000) 128 (f * 8 * 1000)
                ltac:(lia) ltac:(lia)).
  lia.
Qed.

(** The scaling of a decoded voltage stays inside [int]. *)
Lemma scale_no_wrap val k d :
  0 <= k <= 30518 -> 0 < d ->
  s32 (Z.quot (s32 (ltc2990_voltage_to_int val * k)) d)
  = Z.quot (ltc2990_voltage_to_int val * k) d
  /\ -2000027648 <= Z.quot (ltc2990_voltage_to_int val * k) d <= 2000027648.
Proof.
  intros Hk Hd.
  pose proof (voltage_to_int_range val) as Hv.
  set (v := ltc2990_voltage_to_int val) in *.
  assert (Hp : -2000027648 <= v * k <= 2000027648) by nia.
  rewrite (s32_id (v * k)) by (unfold in_s32; lia).
  pose proof (quot_bound (v * k) d (-2000027648) 2000027648 Hd
                ltac:(lia) Hp) as Hq.
  split; [apply s32_id; unfold in_s32; lia | exact Hq].
Qed.

End CodecFacts.

(** C1. [ltc2990_voltage_to_int] is a total function of the register word
    (here of any [int]); it decodes the field of bits 0-14, bit 14 being
    the two's-complement sign, shifted left by two; it sends [0x0000] to 0
    and every word with bit 14 set and bits 0-13 clear to -65536. *)
Theorem C1_voltage_to_int_decodes :
  forall raw : Z,
    ltc2990_voltage_to_int raw = decode_signed14_spec raw
    /\ ltc2990_voltage_to_int 0x0000 = 0
    /\ (Z.testbit raw 14 = true -> Z.land raw 0x3FFF = 0 ->
        ltc2990_voltage_to_int raw = -65536).
Proof.
  intros raw. split; [|split].
  - rewrite voltage_to_int_unfold. unfold decode_signed14_spec.
    change 15 with (14 + 1).
    rewrite mod_pow2_succ by lia.
    destruct (Z.testbit raw 14); cbv zeta; lia.
  - reflexivity.
  - intros Hbit Hlow.
    rewrite voltage_to_int_unfold, Hbit.
    change 0x3FFF with (Z.ones 14) in Hlow.
    rewrite Z.land_ones in Hlow by lia.
    rewrite Hlow. reflexivity.
Qed.

Lemma C1_voltage_to_int_decodes_witness :
  Z.testbit 0xC000 14 = true /\ Z.land 0xC000 0x3FFF = 0
  /\ ltc2990_voltage_to_int 0xC000 = -65536.
Proof.
  split; [reflexivity | split; [reflexivity |]].
  apply (proj2 (proj2 (C1_voltage_to_int_decodes 0xC000))); reflexivity.
Defined.

(** ** Reading a channel *)

(** Case analysis on the tests of a [switch] over the variable [i]. *)
Ltac switch_cases i :=
  repeat match goal with
    | |- context [ i =? ?c ] =>
        let E := fresh "E" in
        destruct (Z.eqb_spec i c) as [E | E]; cbn [orb negb]
    end.

Ltac in_list := cbn [In]; repeat (first [left; reflexivity | right]).

Section GetValueFacts.

Context {K : Kernel}.

Lemma get_value_reg_channel index reg :
  ltc2990_get_value_reg index = Some reg -> In index ltc2990_channels.
Proof.
  unfold ltc2990_get_value_reg; switch_cases index;
    try discriminate; intros _;
    match goal with H : index = _ |- _ => rewrite H end;
    unfold ltc2990_channels; in_list.
Qed.

Lemma get_value_reg_default index :
  ~ In index ltc2990_channels -> ltc2990_get_value_reg index = None.
Proof.
  intros Hout.
  destruct (ltc2990_get_value_reg index) as [reg|] eqn:Hreg;
    [| reflexivity].
  exfalso; apply Hout; exact (get_value_reg_channel _ _ Hreg).
Qed.

(** The [default:] label of the second [switch] is never reached. *)
Lemma get_value_conv_defined index reg val :
  ltc2990_get_value_reg index = Some reg ->
  exists v, ltc2990_get_value_conv index val = Some v.
Proof.
  intros Hreg. apply get_value_reg_channel in Hreg.
  unfold ltc2990_channels in Hreg; cbn [In] in Hreg.
  repeat (destruct Hreg as [<- | Hreg]; [eexists; reflexivity |]).
  contradiction.
Qed.

Lemma get_value_default index result w :
  ltc2990_get_value_reg index = None ->
  ltc2990_get_value index result w = ((- EINVAL, result), w).
Proof. intros Hreg; unfold ltc2990_get_value; rewrite Hreg; reflexivity. Qed.

Lemma get_value_mapped index reg result w :
  ltc2990_get_value_reg index = Some reg ->
  let val := smbus_read_word (klog w) reg in
  let w' := {| data := data w; klog := klog w ++ [EvReadWord reg val] |} in
  ltc2990_get_value index result w =
  if val <? 0 then ((val, result), w')
  else match ltc2990_get_value_conv index val with
       | Some v => ((0, v), w')
       | None => ((- EINVAL, result), w')
       end.
Proof.
  intros Hreg; cbv zeta.
  unfold ltc2990_get_value; rewrite Hreg.
  unfold bind, i2c_smbus_read_word_swapped, pure.
  destruct (smbus_read_word (klog w) reg <? 0); [reflexivity |].
  destruct (ltc2990_get_value_conv index _); reflexivity.
Qed.

(** A word that was read and converts gives a successful return. *)
Lemma get_value_success index reg raw v result w :
  ltc2990_get_value_reg index = Some reg ->
  smbus_read_word (klog w) reg = raw ->
  0 <= raw ->
  ltc2990_get_value_conv index raw = Some v ->
  ltc2990_get_value index result w =
  ((0, v), {| data := data w; klog := klog w ++ [EvReadWord reg raw] |}).
Proof.
  intros Hreg Hraw Hpos Hconv.
  rewrite (get_value_mapped index reg result w Hreg); cbv zeta.
  rewrite Hraw, Hconv.
  destruct (Z.ltb_spec raw 0); [lia | reflexivity].
Qed.

Lemma conv_temp index val :
  In index [LTC2990_TEMP1; LTC2990_TEMP2; LTC2990_TEMP3] ->
  ltc2990_get_value_conv index val
  = Some (Z.shiftr (Z.shiftl (Z.land val 0x1FFF) 3 * 1000) 7).
Proof.
  intros Hin. rewrite <- temp_no_wrap.
  cbn [In] in Hin.
  repeat (destruct Hin as [<- | Hin]; [reflexivity |]).
  contradiction.
Qed.

Lemma conv_curr index val :
  In index [LTC2990_CURR1; LTC2990_CURR2] ->
  ltc2990_get_value_conv index val
  = Some (Z.quot (ltc2990_voltage_to_int val * 1942) 400).
Proof.
  intros Hin.
  rewrite <- (proj1 (scale_no_wrap val 1942 400 ltac:(lia) ltac:(lia))).
  cbn [In] in Hin.
  repeat (destruct Hin as [<- | Hin]; [reflexivity |]).
  contradiction.
Qed.

Lemma conv_in index val :
  In index [LTC2990_IN1; LTC2990_IN2; LTC2990_IN3; LTC2990_IN4] ->
  ltc2990_get_value_conv index val
  = Some (Z.quot (ltc2990_voltage_to_int val * 30518) 400000).
Proof.
  intros Hin.
  rewrite <- (proj1 (scale_no_wrap val 30518 400000 ltac:(lia) ltac:(lia))).
  cbn [In] in Hin.
  repeat (destruct Hin as [<- | Hin]; [reflexivity |]).
  contradiction.
Qed.

Lemma conv_in0 val :
  ltc2990_get_value_conv LTC2990_IN0 val
  = Some (Z.quot (ltc2990_voltage_to_int val * 30518) 400000 + 2500).
Proof.
  destruct (scale_no_wrap val 30518 400000 ltac:(lia) ltac:(lia))
    as [Hq Hb].
  rewrite <- (s32_id (_ + 2500)) by (unfold in_s32; lia).
  rewrite <- Hq. reflexivity.
Qed.

End GetValueFacts.

(** C2. On each of the three temperature channels (TEMP1, TEMP2, TEMP3)
    and for every 16-bit register word [raw] read from the channel's
    register, the conversion and [ltc2990_get_value] yield exactly
    [(((raw & 0x1FFF) << 3) * 1000) >> 7]: the low 13 bits taken unsigned,
    shifted left by 3, multiplied by 1000 and shifted right by 7, which is
    a number of millidegrees; the call returns 0. *)
Theorem C2_temperature_channels {K : Kernel} :
  forall (index reg raw result : Z) (w : world),
    In index [LTC2990_TEMP1; LTC2990_TEMP2; LTC2990_TEMP3] ->
    ltc2990_get_value_reg index = Some reg ->
    smbus_read_word (klog w) reg = raw ->
    0 <= raw < 2 ^ 16 ->
    let mC := Z.shiftr (Z.shiftl (Z.land raw 0x1FFF) 3 * 1000) 7 in
    ltc2990_get_value_conv index raw = Some mC
    /\ ltc2990_get_value index result w
       = ((0, mC),
          {| data := data w; klog := klog w ++ [EvReadWord reg raw] |})
    /\ mC = raw mod 2 ^ 13 * 8 * 1000 / 2 ^ 7.
Proof.
  intros index reg raw result w Hin Hreg Hraw Hword mC.
  assert (Hconv : ltc2990_get_value_conv index raw = Some mC)
    by (apply conv_temp; assumption).
  split; [exact Hconv | split].
  - apply get_value_success; try assumption; lia.
  - subst mC. change 0x1FFF with (Z.ones 13).
    rewrite Z.land_ones, Z.shiftl_mul_pow2, Z.shiftr_div_pow2 by lia.
    reflexivity.
Qed.

Lemma C2_temperature_channels_witness :
  ltc2990_get_value (K := Bench.kernel 0x0190 0 0) LTC2990_TEMP1 0
    (Bench.running 6)
  = ((0, 25000),
     {| data := {| mode := 6 |};
        klog := [EvReadWord LTC2990_TINT_MSB 0x0190] |}).
Proof.
  refine (proj1 (proj2 (C2_temperature_channels (K := Bench.kernel 0x0190 0 0)
            LTC2990_TEMP1 LTC2990_TINT_MSB 0x0190 0 (Bench.running 6)
            _ _ _ _))).
  - left; reflexivity.
  - reflexivity.
  - reflexivity.
  - split; [discriminate | reflexivity].
Defined.

(** C3. For every 16-bit register word [raw] read from the channel's
    register, the supply channel IN0 yields
    [ltc2990_voltage_to_int raw * 30518 / 400000 + 2500] and each of
    IN1-IN4 yields [ltc2990_voltage_to_int raw * 30518 / 400000], the
    division truncating toward zero; so a word that decodes to zero gives
    exactly 2500 on IN0 and exactly 0 on IN1-IN4. *)
Theorem C3_voltage_channels {K : Kernel} :
  forall (index reg raw result : Z) (w : world),
    In index [LTC2990_IN0; LTC2990_IN1; LTC2990_IN2; LTC2990_IN3;
              LTC2990_IN4] ->
    ltc2990_get_value_reg index = Some reg ->
    smbus_read_word (klog w) reg = raw ->
    0 <= raw < 2 ^ 16 ->
    let scaled := Z.quot (ltc2990_voltage_to_int raw * 30518) 400000 in
    let mV := if index =? LTC2990_IN0 then scaled + 2500 else scaled in
    ltc2990_get_value_conv index raw = Some mV
    /\ ltc2990_get_value index result w
       = ((0, mV),
          {| data := data w; klog := klog w ++ [EvReadWord reg raw] |})
    /\ (ltc2990_voltage_to_int raw = 0 ->
        mV = if index =? LTC2990_IN0 then 2500 else 0).
Proof.
  intros index reg raw result w Hin Hreg Hraw Hword scaled mV.
  assert (Hconv : ltc2990_get_value_conv index raw = Some mV).
  { subst mV scaled. cbn [In] in Hin.
    destruct Hin as [<- | Hin]; [apply conv_in0 |].
    rewrite conv_in by (cbn [In]; tauto).
    repeat (destruct Hin as [<- | Hin]; [reflexivity |]).
    contradiction. }
  split; [exact Hconv | split].
  - apply get_value_success; try assumption; lia.
  - intros Hzero. subst mV scaled. rewrite Hzero.
    destruct (index =? LTC2990_IN0); reflexivity.
Qed.

Lemma C3_voltage_channels_witness :
  ltc2990_get_value (K := Bench.kernel 0x8000 0 0) LTC2990_IN0 0
    (Bench.running 7)
  = ((0, 2500),
     {| data := {| mode := 7 |};
        klog := [EvReadWord LTC2990_VCC_MSB 0x8000] |})
  /\ ltc2990_get_value (K := Bench.kernel 0x8000 0 0) LTC2990_IN1 0
       (Bench.running 7)
     = ((0, 0),
        {| data := {| mode := 7 |};
           klog := [EvReadWord LTC2990_V1_MSB 0x8000] |}).
Proof.
  split.
  - refine (proj1 (proj2 (C3_voltage_channels (K := Bench.kernel 0x8000 0 0)
              LTC2990_IN0 LTC2990_VCC_MSB 0x8000 0 (Bench.running 7)
              _ _ _ _))).
    + left; reflexivity.
    + reflexivity.
    + reflexivity.
    + split; [discriminate | reflexivity].
  - refine (proj1 (proj2 (C3_voltage_channels (K := Bench.kernel 0x8000 0 0)
              LTC2990_IN1 LTC2990_V1_MSB 0x8000 0 (Bench.running 7)
              _ _ _ _))).
    + right; left; reflexivity.
    + reflexivity.
    + reflexivity.
    + split; [discriminate | reflexivity].
Defined.

(** C4. For every 16-bit register word [raw] read from the channel's
    register, each of the two differential channels (CURR1, CURR2) yields
    exactly [ltc2990_voltage_to_int raw * 1942 / 400] with the division
    of C, which truncates toward zero: for a negative decoded value the
    result is minus the quotient of the magnitude, and it differs from
    the floor quotient, as on the word [0xFFFF] (-19, floor -20). *)
Theorem C4_current_channels {K : Kernel} :
  forall (index reg raw result : Z) (w : world),
    In index [LTC2990_CURR1; LTC2990_CURR2] ->
    ltc2990_get_value_reg index = Some reg ->
    smbus_read_word (klog w) reg = raw ->
    0 <= raw < 2 ^ 16 ->
    let v := ltc2990_voltage_to_int raw in
    let uV := Z.quot (v * 1942) 400 in
    ltc2990_get_value_conv index raw = Some uV
    /\ ltc2990_get_value index result w
       = ((0, uV),
          {| data := data w; klog := klog w ++ [EvReadWord reg raw] |})
    /\ (0 <= v -> uV = v * 1942 / 400)
    /\ (v < 0 -> uV = - (- v * 1942 / 400))
    /\ ltc2990_get_value_conv index 0xFFFF = Some (-19)
    /\ ltc2990_voltage_to_int 0xFFFF * 1942 / 400 = -20.
Proof.
  intros index reg raw result w Hin Hreg Hraw Hword v uV.
  assert (Hconv : forall x, ltc2990_get_value_conv index x
                            = Some (Z.quot (ltc2990_voltage_to_int x * 1942) 400))
    by (intros x; apply conv_curr; assumption).
  split; [apply Hconv | split; [| split; [| split; [| split]]]].
  - apply get_value_success; try assumption; [lia | apply Hconv].
  - intros Hv. subst uV. apply Z.quot_div_nonneg; lia.
  - intros Hv. subst uV.
    replace (v * 1942) with (- (- v * 1942)) by lia.
    rewrite Z.quot_opp_l by lia.
    rewrite Z.quot_div_nonneg by lia. reflexivity.
  - rewrite Hconv. reflexivity.
  - reflexivity.
Qed.

Lemma C4_current_channels_witness :
  ltc2990_get_value (K := Bench.kernel 0xFFFF 0 0) LTC2990_CURR2 0
    (Bench.running 6)
  = ((0, -19),
     {| data := {| mode := 6 |};
        klog := [EvReadWord LTC2990_V3_MSB 0xFFFF] |}).
Proof.
  refine (proj1 (proj2 (C4_current_channels (K := Bench.kernel 0xFFFF 0 0)
            LTC2990_CURR2 LTC2990_V3_MSB 0xFFFF 0 (Bench.running 6)
            _ _ _ _))).
  - right; left; reflexivity.
  - reflexivity.
  - reflexivity.
  - split; [discriminate | reflexivity].
Defined.

(** C8. The register of a channel is fixed: VCC for IN0, V1 for IN1,
    CURR1 and TEMP2, V2 for IN2, V3 for IN3, CURR2 and TEMP3, V4 for IN4
    and TINT for TEMP1; [ltc2990_get_value] reads exactly that register
    once and leaves the driver data alone, its outcome is the same
    whatever the current mode is, and for an index outside the ten
    channels it returns [-EINVAL] without any bus transfer. *)
Theorem C8_register_map {K : Kernel} :
  map ltc2990_get_value_reg ltc2990_channels
  = [ Some LTC2990_VCC_MSB;
      Some LTC2990_V1_MSB; Some LTC2990_V2_MSB;
      Some LTC2990_V3_MSB; Some LTC2990_V4_MSB;
      Some LTC2990_V1_MSB; Some LTC2990_V3_MSB;
      Some LTC2990_TINT_MSB; Some LTC2990_V1_MSB; Some LTC2990_V3_MSB ]
  /\ (forall index reg result w,
         ltc2990_get_value_reg index = Some reg ->
         let w' := snd (ltc2990_get_value index result w) in
         klog w' = klog w ++ [EvReadWord reg (smbus_read_word (klog w) reg)]
         /\ data w' = data w)
  /\ (forall index result w,
         ~ In index ltc2990_channels ->
         ltc2990_get_value index result w = ((- EINVAL, result), w)
         /\ - EINVAL = -22)
  /\ (forall index result w m,
         ltc2990_get_value index result
           {| data := {| mode := m |}; klog := klog w |}
         = let '(r, w') := ltc2990_get_value index result w in
           (r, {| data := {| mode := m |}; klog := klog w' |})).
Proof.
  split; [reflexivity | split; [| split]].
  - intros index reg result w Hreg; cbv zeta.
    rewrite (get_value_mapped index reg result w Hreg); cbv zeta.
    destruct (_ <? 0); [split; reflexivity |].
    destruct (ltc2990_get_value_conv index _); split; reflexivity.
  - intros index result w Hout. split; [| reflexivity].
    apply get_value_default, get_value_reg_default; assumption.
  - intros index result w m.
    destruct (ltc2990_get_value_reg index) as [reg|] eqn:Hreg.
    + rewrite (get_value_mapped index reg result w Hreg).
      rewrite (get_value_mapped index reg result _ Hreg).
      cbv zeta; cbn [klog data].
      destruct (_ <? 0); [reflexivity |].
      destruct (ltc2990_get_value_conv index _); reflexivity.
    + rewrite !get_value_default by assumption. reflexivity.
Qed.

Lemma C8_register_map_witness :
  ltc2990_get_value (K := Bench.kernel 0x0190 0 0) 3 77 (Bench.running 6)
  = ((-22, 77), Bench.running 6).
Proof.
  refine (proj1 (proj1 (proj2 (proj2 (C8_register_map
            (K := Bench.kernel 0x0190 0 0)))) 3 77 (Bench.running 6) _)).
  unfold ltc2990_channels; cbn [In].
  intros H; repeat (destruct H as [H | H]; [discriminate H |]).
  exact H.
Defined.

(** C10. [ltc2990_get_value] stores to [*result] only when it returns 0,
    and then it stores the conversion of the word it read; on each failing
    return, which is negative, [*result] is as before the call: [-EINVAL]
    for an unmapped index, with no transfer made, or the negative code of
    the failed read. *)
Theorem C10_result_written_on_success_only {K : Kernel} :
  forall (index result : Z) (w : world),
    let '((ret, result'), w') := ltc2990_get_value index result w in
    (ret = 0
     /\ exists reg,
         ltc2990_get_value_reg index = Some reg
         /\ 0 <= smbus_read_word (klog w) reg
         /\ ltc2990_get_value_conv index (smbus_read_word (klog w) reg)
            = Some result')
    \/ (ret < 0 /\ result' = result
        /\ (ltc2990_get_value_reg index = None /\ ret = - EINVAL /\ w' = w
            \/ exists reg,
                ltc2990_get_value_reg index = Some reg
                /\ ret = smbus_read_word (klog w) reg)).
Proof.
  intros index result w.
  destruct (ltc2990_get_value_reg index) as [reg|] eqn:Hreg.
  - rewrite (get_value_mapped index reg result w Hreg); cbv zeta.
    destruct (Z.ltb_spec (smbus_read_word (klog w) reg) 0) as [Hneg|Hpos].
    + right. split; [assumption | split; [reflexivity |]].
      right. exists reg. split; [reflexivity | reflexivity].
    + destruct (get_value_conv_defined index reg
                  (smbus_read_word (klog w) reg) Hreg) as [v Hv].
      rewrite Hv. left. split; [reflexivity |].
      exists reg. repeat split; assumption.
  - rewrite get_value_default by assumption.
    right. split; [reflexivity | split; [reflexivity |]].
    left. repeat split.
Qed.

(** ** Mode table *)

(** C5. The mode table is a lookup by mode alone.  Read as sets of
    channels its eight entries are 0:{IN1,IN2,TEMP3}, 1:{CURR1,TEMP3},
    2:{CURR1,IN3,IN4}, 3:{TEMP2,IN3,IN4}, 4:{TEMP2,CURR2},
    5:{TEMP2,TEMP3}, 6:{CURR1,CURR2}, 7:{IN1,IN2,IN3,IN4}, so TEMP1 and
    IN0 are in no entry; the files of the gated group are those of the
    entry, and the files of TEMP1 and IN0 (and of the mode itself) sit in
    the group without a visibility callback and exist whatever the mode
    is. *)
Theorem C5_mode_table :
  map enabled_channels [0; 1; 2; 3; 4; 5; 6; 7]
  = [ Some [LTC2990_IN1; LTC2990_IN2; LTC2990_TEMP3];
      Some [LTC2990_CURR1; LTC2990_TEMP3];
      Some [LTC2990_IN3; LTC2990_IN4; LTC2990_CURR1];
      Some [LTC2990_IN3; LTC2990_IN4; LTC2990_TEMP2];
      Some [LTC2990_CURR2; LTC2990_TEMP2];
      Some [LTC2990_TEMP2; LTC2990_TEMP3];
      Some [LTC2990_CURR1; LTC2990_CURR2];
      Some [LTC2990_IN1; LTC2990_IN2; LTC2990_IN3; LTC2990_IN4] ]
  /\ map (fun m => option_map (map fst)
                     (sysfs_group_files ltc2990_group {| mode := m |}))
       [0; 1; 2; 3; 4; 5; 6; 7]
     = [ Some ["temp3_input"; "in1_input"; "in2_input"];
         Some ["temp3_input"; "curr1_input"];
         Some ["curr1_input"; "in3_input"; "in4_input"];
         Some ["temp2_input"; "in3_input"; "in4_input"];
         Some ["temp2_input"; "curr2_input"];
         Some ["temp2_input"; "temp3_input"];
         Some ["curr1_input"; "curr2_input"];
         Some ["in1_input"; "in2_input"; "in3_input"; "in4_input"] ]
  /\ (forall d : ltc2990_data,
         sysfs_group_files ltc2990_static_group d
         = Some [ ("temp1_input", S_IRUGO); ("in0_input", S_IRUGO);
                  ("mode", Z.lor S_IRUGO S_IWUSR) ])
  /\ (forall (d : ltc2990_data) (a : sensor_device_attribute) (n n' : Z),
         ltc2990_attrs_visible d a n
         = ltc2990_attrs_visible {| mode := mode d |} a n')
  /\ map index ltc2990_attrs
     = [ LTC2990_TEMP2; LTC2990_TEMP3; LTC2990_CURR1; LTC2990_CURR2;
         LTC2990_IN1; LTC2990_IN2; LTC2990_IN3; LTC2990_IN4 ].
Proof.
  split; [vm_compute; reflexivity |].
  split; [vm_compute; reflexivity |].
  split; [intros d; reflexivity |].
  split; [intros d a n n'; reflexivity | reflexivity].
Qed.

(** ** Monitor controller *)

Section ControllerFacts.

Context {K : Kernel}.

Lemma control_writes_app l1 l2 :
  control_writes (l1 ++ l2) = control_writes l1 ++ control_writes l2.
Proof.
  induction l1 as [| e l1 IH]; [reflexivity |].
  destruct e; cbn [control_writes app]; try exact IH.
  destruct (command =? LTC2990_CONTROL); cbn [app]; congruence.
Qed.

(** The control byte of a mode in range needs no truncation. *)
Lemma control_byte m :
  0 <= m <= LTC2990_CONTROL_MODE_MAX ->
  u8 (Z.lor LTC2990_CONTROL_MEASURE_ALL m)
  = Z.lor LTC2990_CONTROL_MEASURE_ALL m
  /\ Z.lor LTC2990_CONTROL_MEASURE_ALL m = 0x18 + m.
Proof.
  unfold LTC2990_CONTROL_MODE_MAX; intros Hm.
  assert (H : m = 0 \/ m = 1 \/ m = 2 \/ m = 3
              \/ m = 4 \/ m = 5 \/ m = 6 \/ m = 7) by lia.
  repeat (destruct H as [-> | H]; [split; reflexivity |]).
  subst m; split; reflexivity.
Qed.

(** What [ltc2990_write_control_trigger] does: it first writes the
    control byte of the stored mode, never touches the driver data,
    writes the control register once, and returns 0 or the negative code
    of the write that failed. *)
Lemma write_control_trigger_effect w r w' :
  ltc2990_write_control_trigger w = (r, w') ->
  data w' = data w
  /\ r <= 0
  /\ exists r1 rest,
      klog w'
      = klog w
        ++ EvWriteByte LTC2990_CONTROL
             (u8 (Z.lor LTC2990_CONTROL_MEASURE_ALL (mode (data w)))) r1
           :: rest
      /\ control_writes rest = []
      /\ forallb write_or_err rest = true
      /\ (r1 < 0 -> r = r1).
Proof.
  unfold ltc2990_write_control_trigger, bind, get_data,
    i2c_smbus_write_byte_data, dev_err, emit, pure.
  cbn [data klog].
  set (ctl := u8 (Z.lor LTC2990_CONTROL_MEASURE_ALL (mode (data w)))).
  set (r1 := smbus_write_byte (klog w) LTC2990_CONTROL ctl).
  destruct (Z.ltb_spec r1 0) as [H1 | H1].
  - intros [= <- <-]; cbn [data klog].
    split; [reflexivity | split; [lia |]].
    exists r1, [EvDevErr ("Error: Failed to set control mode." ++ LF)].
    rewrite <- app_assoc. repeat split.
  - cbn [data klog].
    set (r2 := smbus_write_byte _ LTC2990_TRIGGER 1).
    destruct (Z.ltb_spec r2 0) as [H2 | H2].
    + intros [= <- <-]; cbn [data klog].
      split; [reflexivity | split; [lia |]].
      exists r1, [EvWriteByte LTC2990_TRIGGER 1 r2;
                  EvDevErr ("Error: Failed to start acquisition." ++ LF)].
      rewrite <- !app_assoc.
      split; [reflexivity | split; [reflexivity | split; [reflexivity | lia]]].
    + intros [= <- <-]; cbn [data klog].
      split; [reflexivity | split; [lia |]].
      exists r1, [EvWriteByte LTC2990_TRIGGER 1 r2].
      rewrite <- !app_assoc.
      split; [reflexivity | split; [reflexivity | split; [reflexivity | lia]]].
Qed.

(** A text that [kstrtoul] refuses changes nothing either. *)
Lemma set_mode_parse_error buf count w ret m :
  kstrtoul buf 10 = (ret, m) -> ret <> 0 ->
  ltc2990_set_mode buf count w = (ret, w).
Proof.
  intros Hparse Hret. unfold ltc2990_set_mode. rewrite Hparse.
  destruct (Z.eqb_spec ret 0); [contradiction | reflexivity].
Qed.

(** The shape of [ltc2990_set_mode] once the mode is accepted. *)
Lemma set_mode_accepted buf count w m :
  kstrtoul buf 10 = (0, m) ->
  0 <= m <= LTC2990_CONTROL_MODE_MAX ->
  ltc2990_set_mode buf count w
  = let locked := {| data := {| mode := m |};
                     klog := klog w ++ [EvMutexLock] |} in
    let '(r, w2) := ltc2990_write_control_trigger locked in
    if r <? 0
    then (r, {| data := data w2; klog := klog w2 ++ [EvMutexUnlock] |})
    else
      let '(r', w3) := sysfs_update_group ltc2990_group w2 in
      (if r' <? 0 then r' else s32 count,
       {| data := data w3; klog := klog w3 ++ [EvMutexUnlock] |}).
Proof.
  intros Hparse Hm. unfold ltc2990_set_mode. rewrite Hparse.
  cbn [Z.eqb negb].
  destruct (Z.gtb_spec m LTC2990_CONTROL_MODE_MAX) as [Hgt | _]; [lia |].
  rewrite u32_id by (unfold LTC2990_CONTROL_MODE_MAX in Hm; lia).
  cbv zeta.
  unfold bind at 1 2 3. unfold mutex_lock, put_mode, emit at 1.
  cbn [data klog].
  unfold bind at 1.
  destruct (ltc2990_write_control_trigger _) as [r w2].
  destruct (r <? 0).
  - reflexivity.
  - unfold bind at 1.
    destruct (sysfs_update_group ltc2990_group w2) as [r' w3].
    destruct (r' <? 0); reflexivity.
Qed.

End ControllerFacts.

(** C6. When the text parses to a mode greater than 7,
    [ltc2990_set_mode] returns [-EINVAL] and nothing has happened: the
    lock was not taken, no byte was written to the control register, no
    group was updated, and the stored mode, hence the set of enabled
    channels, is the one from before. *)
Theorem C6_set_mode_rejects_out_of_range {K : Kernel} :
  forall (buf : string) (count m : Z) (w : world),
    kstrtoul buf 10 = (0, m) ->
    LTC2990_CONTROL_MODE_MAX < m ->
    let '(ret, w') := ltc2990_set_mode buf count w in
    ret = - EINVAL /\ ret = -22
    /\ w' = w
    /\ mode (data w') = mode (data w)
    /\ klog w' = klog w
    /\ control_writes (klog w') = control_writes (klog w)
    /\ enabled_channels (mode (data w')) = enabled_channels (mode (data w)).
Proof.
  intros buf count m w Hparse Hm.
  unfold ltc2990_set_mode. rewrite Hparse. cbn [Z.eqb negb].
  destruct (Z.gtb_spec m LTC2990_CONTROL_MODE_MAX) as [_ | Hle]; [| lia].
  unfold pure. repeat split.
Qed.

Lemma C6_set_mode_rejects_out_of_range_witness :
  let '(ret, w') :=
    ltc2990_set_mode (K := Bench.kernel 0 0 0) ("8" ++ LF)%string 2
      (Bench.running 6) in
  ret = -22 /\ w' = Bench.running 6.
Proof.
  pose proof (C6_set_mode_rejects_out_of_range (K := Bench.kernel 0 0 0)
                ("8" ++ LF)%string 2 8 (Bench.running 6)
                eq_refl eq_refl) as H.
  destruct (ltc2990_set_mode _ _ _) as [ret w'].
  destruct H as (_ & Hret & Hw & _).
  split; [exact Hret | exact Hw].
Defined.

(** C7. With a mode in 0-7 [ltc2990_set_mode] stores the mode before it
    writes to the chip: the first transfer after taking the lock is the
    control byte of the new mode.  When the control or the trigger write
    then fails, the mode in the driver data is the new one, not the one
    from before, no group update is attempted, the lock is released and
    the negative code of the failed write is returned.  ([rest] below is
    what follows the control write: byte writes and error messages
    only.) *)
Theorem C7_set_mode_not_rolled_back {K : Kernel} :
  forall (buf : string) (count m r : Z) (w w2 : world),
    kstrtoul buf 10 = (0, m) ->
    0 <= m <= LTC2990_CONTROL_MODE_MAX ->
    ltc2990_write_control_trigger
      {| data := {| mode := m |}; klog := klog w ++ [EvMutexLock] |}
    = (r, w2) ->
    r < 0 ->
    ltc2990_set_mode buf count w
    = (r, {| data := {| mode := m |}; klog := klog w2 ++ [EvMutexUnlock] |})
    /\ exists r1 rest,
        klog w2
        = klog w
          ++ EvMutexLock
             :: EvWriteByte LTC2990_CONTROL
                  (Z.lor LTC2990_CONTROL_MEASURE_ALL m) r1
             :: rest
        /\ control_writes rest = []
        /\ forallb write_or_err rest = true
        /\ (r1 < 0 -> r = r1).
Proof.
  intros buf count m r w w2 Hparse Hm Hwct Hr.
  rewrite (set_mode_accepted buf count w m Hparse Hm); cbv zeta.
  rewrite Hwct.
  destruct (write_control_trigger_effect _ _ _ Hwct)
    as (Hdata & _ & r1 & rest & Hlog & Hctl & Hevs & Hfirst).
  cbn [data klog mode] in Hdata, Hlog.
  destruct (Z.ltb_spec r 0) as [_ | Hge]; [| lia].
  split; [rewrite Hdata; reflexivity |].
  exists r1, rest.
  rewrite (proj1 (control_byte m Hm)) in Hlog.
  rewrite <- app_assoc in Hlog. cbn [app] in Hlog.
  repeat split; assumption.
Qed.

Lemma C7_set_mode_not_rolled_back_witness :
  ltc2990_set_mode (K := Bench.kernel 0 (-5) 0) ("3" ++ LF)%string 2
    (Bench.running 6)
  = (-5,
     {| data := {| mode := 3 |};
        klog := [ EvMutexLock; EvWriteByte LTC2990_CONTROL 0x1B (-5);
                  EvDevErr ("Error: Failed to set control mode." ++ LF);
                  EvMutexUnlock ] |}).
Proof.
  refine (proj1 (C7_set_mode_not_rolled_back (K := Bench.kernel 0 (-5) 0)
            ("3" ++ LF)%string 2 3 (-5) (Bench.running 6)
            {| data := {| mode := 3 |};
               klog := [ EvMutexLock; EvWriteByte LTC2990_CONTROL 0x1B (-5);
                         EvDevErr ("Error: Failed to set control mode." ++ LF) ] |}
            _ _ _ _)).
  - reflexivity.
  - split; discriminate.
  - reflexivity.
  - reflexivity.
Defined.

(** The run of [ltc2990_i2c_probe] on a "mode" property above 7, from the
    conversion start on: after the warning the driver data holds the
    default mode 6, [ltc2990_write_control_trigger] runs from there, the
    control register receives 0x1E (measure all, mode 6) and no other
    value, and the mode left in the driver data is 6. *)
Lemma probe_out_of_range_run {K : Kernel} :
  forall (node : device_node) (m : Z) (w : world),
    check_functionality = true ->
    kzalloc_ok (klog w) = true ->
    of_property_read_u32 node "mode" = (0, m) ->
    LTC2990_CONTROL_MODE_MAX < m < 2 ^ 32 ->
    let warned :=
      {| data := {| mode := LTC2990_CONTROL_MODE_DEFAULT |};
         klog := klog w
                 ++ [ EvKzalloc true;
                      EvDevWarn
                        ("Warning: Mode %d out of range, defaulting to %d." ++ LF)
                        [s32 m; LTC2990_CONTROL_MODE_DEFAULT] ] |} in
    ltc2990_i2c_probe (Some node) w
    = (let '(r, w2) := ltc2990_write_control_trigger warned in
       if r <? 0 then (r, w2)
       else (mutex_init ;;
             hwmon_dev <-
               devm_hwmon_device_register_with_groups ltc2990_groups ;;
             pure (PTR_ERR_OR_ZERO hwmon_dev)) w2)
    /\ (let '(_, w') := ltc2990_i2c_probe (Some node) w in
        mode (data w') = 6
        /\ control_writes (klog w') = control_writes (klog w) ++ [0x1E]
        /\ exists r1 rest,
            klog w'
            = klog warned ++ EvWriteByte LTC2990_CONTROL 0x1E r1 :: rest).
Proof.
  intros node m w Hfun Hmem Hprop Hm warned.
  assert (Hrun :
    ltc2990_i2c_probe (Some node) w
    = (let '(r, w2) := ltc2990_write_control_trigger warned in
       if r <? 0 then (r, w2)
       else (mutex_init ;;
             hwmon_dev <-
               devm_hwmon_device_register_with_groups ltc2990_groups ;;
             pure (PTR_ERR_OR_ZERO hwmon_dev)) w2)).
  { unfold ltc2990_i2c_probe. rewrite Hfun, Hprop. cbn [negb Z.eqb].
    unfold bind at 1. unfold devm_kzalloc. rewrite Hmem. cbn [negb].
    unfold bind at 1 2 3. unfold put_mode at 1, get_data. cbn [data klog mode].
    rewrite u32_id by (unfold LTC2990_CONTROL_MODE_MAX in Hm; lia).
    destruct (Z.gtb_spec m LTC2990_CONTROL_MODE_MAX) as [_ | Hle]; [| lia].
    unfold bind at 1 2. unfold dev_warn, emit, put_mode. cbn [data klog].
    rewrite <- app_assoc. cbn [app].
    fold warned. unfold bind at 1.
    destruct (ltc2990_write_control_trigger warned) as [r w2].
    destruct (r <? 0); reflexivity. }
  split; [exact Hrun |].
  rewrite Hrun. clear Hrun. subst warned.
  destruct (ltc2990_write_control_trigger _) as [r w2] eqn:Hwct.
  destruct (write_control_trigger_effect _ _ _ Hwct)
    as (Hdata & _ & r1 & rest & Hlog & Hctl & _ & _).
  cbn [data klog mode] in Hdata, Hlog.
  change (u8 (Z.lor LTC2990_CONTROL_MEASURE_ALL LTC2990_CONTROL_MODE_DEFAULT))
    with 0x1E in Hlog.
  destruct (r <? 0).
  - split; [rewrite Hdata; reflexivity |].
    split; [| exists r1, rest; exact Hlog].
    rewrite Hlog, !control_writes_app. cbn [control_writes app].
    change (LTC2990_CONTROL =? LTC2990_CONTROL) with true.
    rewrite Hctl, app_nil_r. reflexivity.
  - unfold bind, mutex_init, emit, devm_hwmon_device_register_with_groups, pure.
    cbn [data klog].
    split; [rewrite Hdata; reflexivity |].
    split.
    + rewrite Hlog, !control_writes_app. cbn [control_writes app].
      change (LTC2990_CONTROL =? LTC2990_CONTROL) with true.
      rewrite Hctl, !app_nil_r. reflexivity.
    + exists r1, (rest ++ [EvMutexInit]
                       ++ [EvHwmonRegister
                             (sysfs_groups_files ltc2990_groups (data w2))
                             (hwmon_register_ret
                                (klog w2 ++ [EvMutexInit]))]).
      rewrite Hlog. rewrite <- !app_assoc. reflexivity.
Qed.

Section ProbeParts.

Context {K : Kernel}.

(** The two parts put together are the probe. *)
Lemma probe_split of_node w :
  ltc2990_i2c_probe of_node w
  = let '(early, w1) := probe_setup of_node w in
    match early with
    | Some ret => (ret, w1)
    | None => probe_finish w1
    end.
Proof.
  unfold ltc2990_i2c_probe, probe_setup, probe_finish.
  destruct check_functionality; cbn [negb]; [| reflexivity].
  unfold bind, devm_kzalloc, pure.
  destruct (kzalloc_ok (klog w)); cbn [negb]; [| reflexivity].
  destruct of_node as [node |]; [| reflexivity].
  destruct (of_property_read_u32 node "mode") as [ret out].
  destruct (negb (ret =? 0)); reflexivity.
Qed.

End ProbeParts.

(** C9, as the code has it.  When the device tree gives a mode above 7,
    [ltc2990_i2c_probe] first reads that value into the mode of the
    driver data; nothing has been sent to the chip then.  It then logs a
    warning, which prints the value from there, puts the default mode 6
    in its place and runs [ltc2990_write_control_trigger] with that
    default, the warning deciding nothing about the returned value: the
    control register receives 0x1E (measure all, mode 6) and no other
    value, and the mode stored when the conversion is started and when
    the probe returns is 6. *)
Theorem C9_probe_replaces_out_of_range_mode {K : Kernel} :
  forall (node : device_node) (m : Z) (w : world),
    check_functionality = true ->
    kzalloc_ok (klog w) = true ->
    of_property_read_u32 node "mode" = (0, m) ->
    LTC2990_CONTROL_MODE_MAX < m < 2 ^ 32 ->
    let read :=
      {| data := {| mode := m |}; klog := klog w ++ [EvKzalloc true] |} in
    let warned :=
      {| data := {| mode := LTC2990_CONTROL_MODE_DEFAULT |};
         klog := klog w
                 ++ [ EvKzalloc true;
                      EvDevWarn
                        ("Warning: Mode %d out of range, defaulting to %d."
                         ++ LF)
                        [s32 m; LTC2990_CONTROL_MODE_DEFAULT] ] |} in
    probe_setup (Some node) w = (None, read)
    /\ ltc2990_i2c_probe (Some node) w = probe_finish read
    /\ ltc2990_i2c_probe (Some node) w
       = (let '(r, w2) := ltc2990_write_control_trigger warned in
          if r <? 0 then (r, w2)
          else (mutex_init ;;
                hwmon_dev <-
                  devm_hwmon_device_register_with_groups ltc2990_groups ;;
                pure (PTR_ERR_OR_ZERO hwmon_dev)) w2)
    /\ (let '(_, w') := ltc2990_i2c_probe (Some node) w in
        mode (data w') = 6
        /\ control_writes (klog w') = control_writes (klog w) ++ [0x1E]
        /\ exists r1 rest,
            klog w'
            = klog warned ++ EvWriteByte LTC2990_CONTROL 0x1E r1 :: rest).
Proof.
  intros node m w Hfun Hmem Hprop Hm read warned.
  assert (Hsetup : probe_setup (Some node) w = (None, read)).
  { unfold probe_setup. rewrite Hfun, Hprop. cbn [negb Z.eqb].
    unfold bind at 1. unfold devm_kzalloc. rewrite Hmem. cbn [negb].
    unfold bind, put_mode, pure. cbn [data klog].
    rewrite u32_id by (unfold LTC2990_CONTROL_MODE_MAX in Hm; lia).
    reflexivity. }
  split; [exact Hsetup |].
  split; [rewrite probe_split, Hsetup; reflexivity |].
  exact (probe_out_of_range_run node m w Hfun Hmem Hprop Hm).
Qed.

Lemma C9_probe_replaces_out_of_range_mode_witness :
  probe_setup (K := Bench.kernel 0 0 0) (Some [("mode", 12)]) Bench.boot
  = (None, {| data := {| mode := 12 |}; klog := [EvKzalloc true] |})
  /\ ltc2990_i2c_probe (K := Bench.kernel 0 0 0) (Some [("mode", 12)])
       Bench.boot
     = (0,
        {| data := {| mode := 6 |};
           klog :=
             [ EvKzalloc true;
               EvDevWarn
                 ("Warning: Mode %d out of range, defaulting to %d." ++ LF)
                 [12; 6];
               EvWriteByte LTC2990_CONTROL 0x1E 0;
               EvWriteByte LTC2990_TRIGGER 0x01 0;
               EvMutexInit;
               EvHwmonRegister
                 (Some [ ("curr1_input", S_IRUGO); ("curr2_input", S_IRUGO);
                         ("temp1_input", S_IRUGO); ("in0_input", S_IRUGO);
                         ("mode", Z.lor S_IRUGO S_IWUSR) ])
                 VALID_PTR ] |}).
Proof.
  assert (Hm : LTC2990_CONTROL_MODE_MAX < 12 < 2 ^ 32)
    by (split; reflexivity).
  pose proof (C9_probe_replaces_out_of_range_mode (K := Bench.kernel 0 0 0)
                [("mode", 12)] 12 Bench.boot eq_refl eq_refl eq_refl Hm)
    as (Hsetup & _ & Hrun & _).
  split; [exact Hsetup | exact Hrun].
Defined.

(** C9 as it was claimed does not hold: the out-of-range value is stored
    as the mode.  With 12 in the device tree, the driver data holds mode
    12 after the first part of the probe, the rest of the probe starts
    from that world, and its warning prints the 12 it finds there. *)
Lemma C9_out_of_range_mode_is_stored :
  exists w1 : world,
    probe_setup (K := Bench.kernel 0 0 0) (Some [("mode", 12)]) Bench.boot
    = (None, w1)
    /\ ltc2990_i2c_probe (K := Bench.kernel 0 0 0) (Some [("mode", 12)])
         Bench.boot
       = probe_finish (K := Bench.kernel 0 0 0) w1
    /\ mode (data w1) = 12
    /\ LTC2990_CONTROL_MODE_MAX < mode (data w1)
    /\ In (EvDevWarn
             ("Warning: Mode %d out of range, defaulting to %d." ++ LF)
             [s32 (mode (data w1)); LTC2990_CONTROL_MODE_DEFAULT])
          (klog (snd (ltc2990_i2c_probe (K := Bench.kernel 0 0 0)
                        (Some [("mode", 12)]) Bench.boot))).
Proof.
  exists {| data := {| mode := 12 |}; klog := [EvKzalloc true] |}.
  split; [reflexivity |].
  split; [reflexivity |].
  split; [reflexivity |].
  split; [reflexivity |].
  right; left; reflexivity.
Qed.

(** ** The stored mode stays an index of the mode table *)

Section ModeRange.

Context {K : Kernel}.

(** [kstrtoul] stores an [unsigned long]; with that, [ltc2990_set_mode]
    keeps the mode within 0-7 on every path, so the table lookup of
    [ltc2990_attrs_visible] stays inside the array. *)
Lemma set_mode_mode_in_range buf count w :
  (forall ret m, kstrtoul buf 10 = (ret, m) -> 0 <= m) ->
  0 <= mode (data w) <= LTC2990_CONTROL_MODE_MAX ->
  0 <= mode (data (snd (ltc2990_set_mode buf count w)))
    <= LTC2990_CONTROL_MODE_MAX.
Proof.
  intros Hul Hw.
  destruct (kstrtoul buf 10) as [ret m] eqn:Hparse.
  specialize (Hul ret m eq_refl).
  destruct (Z.eq_dec ret 0) as [-> | Hret].
  - destruct (Z.le_gt_cases m LTC2990_CONTROL_MODE_MAX) as [Hle | Hgt].
    + rewrite (set_mode_accepted buf count w m Hparse (conj Hul Hle)).
      cbv zeta.
      destruct (ltc2990_write_control_trigger _) as [r w2] eqn:Hwct.
      destruct (write_control_trigger_effect _ _ _ Hwct) as (Hdata & _).
      cbn [data] in Hdata.
      destruct (r <? 0); cbn [snd data]; [rewrite Hdata; cbn [mode]; lia |].
      unfold sysfs_update_group. cbn [snd data].
      rewrite Hdata; cbn [mode]; lia.
    + unfold ltc2990_set_mode. rewrite Hparse. cbn [Z.eqb negb].
      destruct (Z.gtb_spec m LTC2990_CONTROL_MODE_MAX); [exact Hw | lia].
  - rewrite (set_mode_parse_error buf count w ret m Hparse Hret). exact Hw.
Qed.

Lemma attrs_visible_defined d a n :
  0 <= mode d <= LTC2990_CONTROL_MODE_MAX ->
  exists umode, ltc2990_attrs_visible d a n = Some umode.
Proof.
  unfold LTC2990_CONTROL_MODE_MAX; intros Hd.
  destruct d as [m]; cbn [mode] in Hd.
  assert (H : m = 0 \/ m = 1 \/ m = 2 \/ m = 3
              \/ m = 4 \/ m = 5 \/ m = 6 \/ m = 7) by lia.
  repeat (destruct H as [-> | H]; [eexists; reflexivity |]).
  subst m; eexists; reflexivity.
Qed.

End ModeRange.

(** * Further properties of the driver *)

(** ** Starting a conversion *)

Section WriteControlTrigger.

Context {K : Kernel}.

(** The three ways through [ltc2990_write_control_trigger]. *)
Lemma write_control_trigger_run w :
  let ctl := u8 (Z.lor LTC2990_CONTROL_MEASURE_ALL (mode (data w))) in
  let r1 := smbus_write_byte (klog w) LTC2990_CONTROL ctl in
  let l1 := klog w ++ [EvWriteByte LTC2990_CONTROL ctl r1] in
  let r2 := smbus_write_byte l1 LTC2990_TRIGGER 0x01 in
  ltc2990_write_control_trigger w
  = if r1 <? 0
    then (r1, {| data := data w;
                 klog := l1 ++ [EvDevErr ("Error: Failed to set control mode." ++ LF)] |})
    else if r2 <? 0
    then (r2, {| data := data w;
                 klog := (l1 ++ [EvWriteByte LTC2990_TRIGGER 0x01 r2])
                         ++ [EvDevErr ("Error: Failed to start acquisition." ++ LF)] |})
    else (0, {| data := data w;
                klog := l1 ++ [EvWriteByte LTC2990_TRIGGER 0x01 r2] |}).
Proof.
  cbv zeta.
  unfold ltc2990_write_control_trigger, bind, get_data,
    i2c_smbus_write_byte_data, dev_err, emit, pure.
  cbn [data klog].
  destruct (_ <? 0); [reflexivity |].
  cbn [data klog].
  destruct (_ <? 0); reflexivity.
Qed.

End WriteControlTrigger.

(** X1. When both byte writes are accepted, [ltc2990_write_control_trigger]
    returns 0 (also when a write answered a positive number), has written
    the control byte and then 0x01 to the trigger register, in that order
    and nothing else, and has left the driver data alone. *)
Theorem X1_write_control_trigger_success {K : Kernel} :
  forall (w : world),
    let ctl := u8 (Z.lor LTC2990_CONTROL_MEASURE_ALL (mode (data w))) in
    let r1 := smbus_write_byte (klog w) LTC2990_CONTROL ctl in
    let l1 := klog w ++ [EvWriteByte LTC2990_CONTROL ctl r1] in
    let r2 := smbus_write_byte l1 LTC2990_TRIGGER 0x01 in
    0 <= r1 -> 0 <= r2 ->
    ltc2990_write_control_trigger w
    = (0, {| data := data w;
             klog := klog w ++ [ EvWriteByte LTC2990_CONTROL ctl r1;
                                 EvWriteByte LTC2990_TRIGGER 0x01 r2 ] |}).
Proof.
  intros w ctl r1 l1 r2 H1 H2.
  rewrite write_control_trigger_run; cbv zeta.
  fold ctl; fold r1; fold l1; fold r2.
  destruct (Z.ltb_spec r1 0); [lia |].
  destruct (Z.ltb_spec r2 0); [lia |].
  unfold l1. rewrite <- app_assoc. reflexivity.
Qed.

Lemma X1_write_control_trigger_success_witness :
  ltc2990_write_control_trigger (K := Bench.kernel 0 1 1) (Bench.running 5)
  = (0, {| data := {| mode := 5 |};
           klog := [ EvWriteByte LTC2990_CONTROL 0x1D 1;
                     EvWriteByte LTC2990_TRIGGER 0x01 1 ] |}).
Proof.
  refine (X1_write_control_trigger_success (K := Bench.kernel 0 1 1)
            (Bench.running 5) _ _); discriminate.
Defined.

(** X2. When the control write fails, [ltc2990_write_control_trigger]
    returns the code of that write, logs one error and stops: the trigger
    register is not written. *)
Theorem X2_write_control_trigger_control_fails {K : Kernel} :
  forall (w : world),
    let ctl := u8 (Z.lor LTC2990_CONTROL_MEASURE_ALL (mode (data w))) in
    let r1 := smbus_write_byte (klog w) LTC2990_CONTROL ctl in
    r1 < 0 ->
    ltc2990_write_control_trigger w
    = (r1, {| data := data w;
              klog := klog w
                      ++ [ EvWriteByte LTC2990_CONTROL ctl r1;
                           EvDevErr ("Error: Failed to set control mode." ++ LF) ] |}).
Proof.
  intros w ctl r1 H1.
  rewrite write_control_trigger_run; cbv zeta.
  fold ctl; fold r1.
  destruct (Z.ltb_spec r1 0); [| lia].
  rewrite <- app_assoc. reflexivity.
Qed.

Lemma X2_write_control_trigger_control_fails_witness :
  ltc2990_write_control_trigger (K := Bench.kernel 0 (-5) 0) (Bench.running 5)
  = (-5, {| data := {| mode := 5 |};
            klog := [ EvWriteByte LTC2990_CONTROL 0x1D (-5);
                      EvDevErr ("Error: Failed to set control mode." ++ LF) ] |}).
Proof.
  refine (X2_write_control_trigger_control_fails (K := Bench.kernel 0 (-5) 0)
            (Bench.running 5) _); reflexivity.
Defined.

(** X3. When the control write is accepted and the trigger write fails,
    [ltc2990_write_control_trigger] returns the code of the trigger write
    and logs one error; the control register keeps the byte just written,
    nothing is written to undo it. *)
Theorem X3_write_control_trigger_trigger_fails {K : Kernel} :
  forall (w : world),
    let ctl := u8 (Z.lor LTC2990_CONTROL_MEASURE_ALL (mode (data w))) in
    let r1 := smbus_write_byte (klog w) LTC2990_CONTROL ctl in
    let l1 := klog w ++ [EvWriteByte LTC2990_CONTROL ctl r1] in
    let r2 := smbus_write_byte l1 LTC2990_TRIGGER 0x01 in
    0 <= r1 -> r2 < 0 ->
    ltc2990_write_control_trigger w
    = (r2, {| data := data w;
              klog := klog w
                      ++ [ EvWriteByte LTC2990_CONTROL ctl r1;
                           EvWriteByte LTC2990_TRIGGER 0x01 r2;
                           EvDevErr ("Error: Failed to start acquisition." ++ LF) ] |}).
Proof.
  intros w ctl r1 l1 r2 H1 H2.
  rewrite write_control_trigger_run; cbv zeta.
  fold ctl; fold r1; fold l1; fold r2.
  destruct (Z.ltb_spec r1 0); [lia |].
  destruct (Z.ltb_spec r2 0); [| lia].
  unfold l1. rewrite <- !app_assoc. reflexivity.
Qed.

Lemma X3_write_control_trigger_trigger_fails_witness :
  ltc2990_write_control_trigger (K := Bench.kernel 0 0 (-5)) (Bench.running 5)
  = (-5, {| data := {| mode := 5 |};
            klog := [ EvWriteByte LTC2990_CONTROL 0x1D 0;
                      EvWriteByte LTC2990_TRIGGER 0x01 (-5);
                      EvDevErr ("Error: Failed to start acquisition." ++ LF) ] |}).
Proof.
  refine (X3_write_control_trigger_trigger_fails (K := Bench.kernel 0 0 (-5))
            (Bench.running 5) _ _); [discriminate | reflexivity].
Defined.

(** X4. For a stored mode in 0-7 the byte that
    [ltc2990_write_control_trigger] sends to the control register has
    bits 7 and 6 clear, bits 4 and 3 set, bit 5 clear and the mode in
    bits 2-0, so the mode can be read back from it. *)
Theorem X4_control_byte_layout {K : Kernel} :
  forall (w : world) (r : Z) (w' : world),
    0 <= mode (data w) <= LTC2990_CONTROL_MODE_MAX ->
    ltc2990_write_control_trigger w = (r, w') ->
    exists ctl r1 rest,
      klog w' = klog w ++ EvWriteByte LTC2990_CONTROL ctl r1 :: rest
      /\ control_writes rest = []
      /\ Z.land ctl 0x07 = mode (data w)
      /\ Z.shiftr ctl 3 = 0x03
      /\ Z.land ctl LTC2990_CONTROL_KELVIN = 0
      /\ Z.land ctl LTC2990_CONTROL_SINGLE = 0.
Proof.
  intros w r w' Hm Hwct.
  destruct (write_control_trigger_effect w r w' Hwct)
    as (_ & _ & r1 & rest & Hlog & Hctl & _ & _).
  exists (u8 (Z.lor LTC2990_CONTROL_MEASURE_ALL (mode (data w)))), r1, rest.
  split; [exact Hlog | split; [exact Hctl |]].
  unfold LTC2990_CONTROL_MODE_MAX in Hm.
  assert (H : mode (data w) = 0 \/ mode (data w) = 1 \/ mode (data w) = 2
              \/ mode (data w) = 3 \/ mode (data w) = 4 \/ mode (data w) = 5
              \/ mode (data w) = 6 \/ mode (data w) = 7) by lia.
  repeat (destruct H as [-> | H]; [repeat split |]).
  rewrite H; repeat split.
Qed.

Lemma X4_control_byte_layout_witness :
  exists ctl r1 rest,
    [ EvWriteByte LTC2990_CONTROL 0x1D 0; EvWriteByte LTC2990_TRIGGER 0x01 0 ]
    = [] ++ EvWriteByte LTC2990_CONTROL ctl r1 :: rest
    /\ control_writes rest = []
    /\ Z.land ctl 0x07 = 5
    /\ Z.shiftr ctl 3 = 0x03
    /\ Z.land ctl LTC2990_CONTROL_KELVIN = 0
    /\ Z.land ctl LTC2990_CONTROL_SINGLE = 0.
Proof.
  refine (X4_control_byte_layout (K := Bench.kernel 0 0 0) (Bench.running 5) 0
            {| data := {| mode := 5 |};
               klog := [ EvWriteByte LTC2990_CONTROL 0x1D 0;
                         EvWriteByte LTC2990_TRIGGER 0x01 0 ] |} _ _).
  - split; discriminate.
  - reflexivity.
Defined.

(** ** Changing the mode *)

(** Logs are compared up to the bracketing of their concatenations. *)
Ltac norm_app :=
  repeat first [ rewrite <- app_assoc | progress cbn [app] ].

Section SetModeFacts.

Context {K : Kernel}.

(** All the ways through [ltc2990_set_mode]. *)
Lemma set_mode_run buf count w ret m :
  kstrtoul buf 10 = (ret, m) ->
  ltc2990_set_mode buf count w
  = if negb (ret =? 0) then (ret, w)
    else if m >? LTC2990_CONTROL_MODE_MAX then (- EINVAL, w)
    else
      let locked := {| data := {| mode := u32 m |};
                       klog := klog w ++ [EvMutexLock] |} in
      let '(r, w2) := ltc2990_write_control_trigger locked in
      if r <? 0
      then (r, {| data := data w2; klog := klog w2 ++ [EvMutexUnlock] |})
      else
        let r' := sysfs_update_ret (klog w2) in
        (if r' <? 0 then r' else s32 count,
         {| data := data w2;
            klog := (klog w2
                     ++ [EvSysfsUpdateGroup
                           (sysfs_group_files ltc2990_group (data w2)) r'])
                    ++ [EvMutexUnlock] |}).
Proof.
  intros Hparse. unfold ltc2990_set_mode. rewrite Hparse.
  destruct (negb (ret =? 0)); [reflexivity |].
  destruct (m >? LTC2990_CONTROL_MODE_MAX); [reflexivity |].
  cbv zeta.
  unfold bind at 1 2 3. unfold mutex_lock, put_mode, emit at 1.
  cbn [data klog].
  unfold bind at 1.
  destruct (ltc2990_write_control_trigger _) as [r w2].
  destruct (r <? 0); [reflexivity |].
  unfold bind at 1. unfold sysfs_update_group.
  destruct (_ <? 0); reflexivity.
Qed.

(** The files of the gated group are those of the channels the mode table
    enables. *)
Lemma group_files_enabled m :
  0 <= m <= LTC2990_CONTROL_MODE_MAX ->
  exists chans,
    enabled_channels m = Some chans
    /\ sysfs_group_files ltc2990_group {| mode := m |}
       = Some (files_of_channels chans ltc2990_attrs).
Proof.
  unfold LTC2990_CONTROL_MODE_MAX; intros Hm.
  assert (H : m = 0 \/ m = 1 \/ m = 2 \/ m = 3
              \/ m = 4 \/ m = 5 \/ m = 6 \/ m = 7) by lia.
  repeat (destruct H as [-> | H];
          [eexists; split; [reflexivity | vm_compute; reflexivity] |]).
  subst m; eexists; split; [reflexivity | vm_compute; reflexivity].
Qed.

Lemma write_or_err_not_mutex l :
  forallb write_or_err l = true ->
  forallb (fun e => negb (is_mutex_event e)) l = true.
Proof.
  induction l as [| e l IH]; [reflexivity |].
  cbn [forallb]. intros H. apply andb_prop in H. destruct H as [He Hl].
  rewrite (IH Hl), andb_true_r.
  destruct e; try discriminate He; reflexivity.
Qed.

End SetModeFacts.

(** X5. A mode in 0-7, both chip writes and the group update going
    through: [ltc2990_set_mode] returns the byte count it was given,
    the stored mode is the new one, and after the chip writes it asks
    sysfs, still under the lock, for exactly the files of the channels
    that the mode table enables for the new mode, then releases the
    lock. *)
Theorem X5_set_mode_success {K : Kernel} :
  forall (buf : string) (count m r : Z) (w w2 : world),
    kstrtoul buf 10 = (0, m) ->
    0 <= m <= LTC2990_CONTROL_MODE_MAX ->
    ltc2990_write_control_trigger
      {| data := {| mode := m |}; klog := klog w ++ [EvMutexLock] |}
    = (r, w2) ->
    0 <= r ->
    0 <= sysfs_update_ret (klog w2) ->
    0 <= count < 2 ^ 31 ->
    exists chans,
      enabled_channels m = Some chans
      /\ ltc2990_set_mode buf count w
         = (count,
            {| data := {| mode := m |};
               klog := klog w2
                       ++ [ EvSysfsUpdateGroup
                              (Some (files_of_channels chans ltc2990_attrs))
                              (sysfs_update_ret (klog w2));
                            EvMutexUnlock ] |}).
Proof.
  intros buf count m r w w2 Hparse Hm Hwct Hr Hsys Hcount.
  destruct (group_files_enabled m Hm) as (chans & Hena & Hfiles).
  exists chans. split; [exact Hena |].
  rewrite (set_mode_run buf count w 0 m Hparse). cbn [Z.eqb negb].
  destruct (Z.gtb_spec m LTC2990_CONTROL_MODE_MAX); [lia |].
  cbv zeta.
  rewrite u32_id by (unfold LTC2990_CONTROL_MODE_MAX in Hm; lia).
  rewrite Hwct.
  destruct (write_control_trigger_effect _ _ _ Hwct) as (Hdata & _).
  cbn [data] in Hdata.
  destruct (Z.ltb_spec r 0); [lia |].
  destruct (Z.ltb_spec (sysfs_update_ret (klog w2)) 0); [lia |].
  rewrite Hdata, Hfiles, <- app_assoc.
  rewrite s32_id by (unfold in_s32; lia).
  reflexivity.
Qed.

Lemma X5_set_mode_success_witness :
  ltc2990_set_mode (K := Bench.kernel 0 0 0) ("3" ++ LF)%string 2
    (Bench.running 6)
  = (2,
     {| data := {| mode := 3 |};
        klog := [ EvMutexLock;
                  EvWriteByte LTC2990_CONTROL 0x1B 0;
                  EvWriteByte LTC2990_TRIGGER 0x01 0;
                  EvSysfsUpdateGroup
                    (Some [ ("temp2_input", S_IRUGO); ("in3_input", S_IRUGO);
                            ("in4_input", S_IRUGO) ]) 0;
                  EvMutexUnlock ] |}).
Proof.
  assert (Hm : 0 <= 3 <= LTC2990_CONTROL_MODE_MAX) by (split; discriminate).
  assert (Hr : 0 <= 0) by discriminate.
  assert (Hcount : 0 <= 2 < 2 ^ 31) by (split; [discriminate | reflexivity]).
  destruct (X5_set_mode_success (K := Bench.kernel 0 0 0)
              ("3" ++ LF)%string 2 3 0 (Bench.running 6)
              {| data := {| mode := 3 |};
                 klog := [ EvMutexLock;
                           EvWriteByte LTC2990_CONTROL 0x1B 0;
                           EvWriteByte LTC2990_TRIGGER 0x01 0 ] |}
              eq_refl Hm eq_refl Hr Hr Hcount)
    as (chans & Hena & Hrun).
  injection Hena as <-. exact Hrun.
Defined.

(** X6. A mode in 0-7 and both chip writes going through, but the group
    update failing: [ltc2990_set_mode] returns the code of
    [sysfs_update_group]; the new mode stays stored and the chip stays
    reconfigured, and the lock is released. *)
Theorem X6_set_mode_update_fails {K : Kernel} :
  forall (buf : string) (count m r : Z) (w w2 : world),
    kstrtoul buf 10 = (0, m) ->
    0 <= m <= LTC2990_CONTROL_MODE_MAX ->
    ltc2990_write_control_trigger
      {| data := {| mode := m |}; klog := klog w ++ [EvMutexLock] |}
    = (r, w2) ->
    0 <= r ->
    sysfs_update_ret (klog w2) < 0 ->
    ltc2990_set_mode buf count w
    = (sysfs_update_ret (klog w2),
       {| data := {| mode := m |};
          klog := klog w2
                  ++ [ EvSysfsUpdateGroup
                         (sysfs_group_files ltc2990_group {| mode := m |})
                         (sysfs_update_ret (klog w2));
                       EvMutexUnlock ] |})
    /\ control_writes (klog w2)
       = control_writes (klog w) ++ [Z.lor LTC2990_CONTROL_MEASURE_ALL m].
Proof.
  intros buf count m r w w2 Hparse Hm Hwct Hr Hsys.
  destruct (write_control_trigger_effect _ _ _ Hwct)
    as (Hdata & _ & r1 & rest & Hlog & Hctl & _ & _).
  cbn [data klog mode] in Hdata, Hlog.
  split.
  - rewrite (set_mode_run buf count w 0 m Hparse). cbn [Z.eqb negb].
    destruct (Z.gtb_spec m LTC2990_CONTROL_MODE_MAX); [lia |].
    cbv zeta.
    rewrite u32_id by (unfold LTC2990_CONTROL_MODE_MAX in Hm; lia).
    rewrite Hwct.
    destruct (Z.ltb_spec r 0); [lia |].
    destruct (Z.ltb_spec (sysfs_update_ret (klog w2)) 0); [| lia].
    rewrite Hdata, <- app_assoc. reflexivity.
  - rewrite Hlog, (proj1 (control_byte m Hm)).
    rewrite !control_writes_app. cbn [control_writes app].
    change (LTC2990_CONTROL =? LTC2990_CONTROL) with true.
    rewrite Hctl, app_nil_r. reflexivity.
Qed.

Lemma X6_set_mode_update_fails_witness :
  ltc2990_set_mode (K := Bench.system 0 0 0 (-12) true true VALID_PTR)
    ("3" ++ LF)%string 2 (Bench.running 6)
  = (-12,
     {| data := {| mode := 3 |};
        klog := [ EvMutexLock;
                  EvWriteByte LTC2990_CONTROL 0x1B 0;
                  EvWriteByte LTC2990_TRIGGER 0x01 0;
                  EvSysfsUpdateGroup
                    (Some [ ("temp2_input", S_IRUGO); ("in3_input", S_IRUGO);
                            ("in4_input", S_IRUGO) ]) (-12);
                  EvMutexUnlock ] |}).
Proof.
  refine (proj1 (X6_set_mode_update_fails
            (K := Bench.system 0 0 0 (-12) true true VALID_PTR)
            ("3" ++ LF)%string 2 3 0 (Bench.running 6)
            {| data := {| mode := 3 |};
               klog := [ EvMutexLock;
                         EvWriteByte LTC2990_CONTROL 0x1B 0;
                         EvWriteByte LTC2990_TRIGGER 0x01 0 ] |}
            _ _ _ _ _)).
  - reflexivity.
  - split; discriminate.
  - reflexivity.
  - discriminate.
  - reflexivity.
Defined.

(** X7. A text that [kstrtoul] does not accept makes
    [ltc2990_set_mode] return the code of [kstrtoul] as it is (which
    need not be [-EINVAL]), with nothing done: no lock, no transfer, no
    change of the mode. *)
Theorem X7_set_mode_parse_error {K : Kernel} :
  forall (buf : string) (count ret m : Z) (w : world),
    kstrtoul buf 10 = (ret, m) ->
    ret <> 0 ->
    ltc2990_set_mode buf count w = (ret, w).
Proof.
  intros buf count ret m w Hparse Hret.
  rewrite (set_mode_run buf count w ret m Hparse).
  destruct (Z.eqb_spec ret 0); [contradiction | reflexivity].
Qed.

Lemma X7_set_mode_parse_error_witness :
  ltc2990_set_mode (K := Bench.kernel 0 0 0) "99999999999999999999" 20
    (Bench.running 6)
  = (- ERANGE, Bench.running 6).
Proof.
  refine (X7_set_mode_parse_error (K := Bench.kernel 0 0 0)
            "99999999999999999999" 20 (- ERANGE) 0 (Bench.running 6) _ _).
  - reflexivity.
  - discriminate.
Defined.

(** X8. On every path [ltc2990_set_mode] either does nothing at all, or
    takes the lock first and releases it last: all it does in between,
    starting with the control write, involves no lock operation, so it
    never returns holding the lock and never writes to the chip without
    it. *)
Theorem X8_set_mode_lock_discipline {K : Kernel} :
  forall (buf : string) (count : Z) (w : world),
    let '(ret, w') := ltc2990_set_mode buf count w in
    w' = w
    \/ exists ctl r1 mid,
        klog w'
        = klog w
          ++ EvMutexLock
             :: (EvWriteByte LTC2990_CONTROL ctl r1 :: mid)
             ++ [EvMutexUnlock]
        /\ forallb (fun e => negb (is_mutex_event e)) mid = true.
Proof.
  intros buf count w.
  destruct (kstrtoul buf 10) as [ret m] eqn:Hparse.
  rewrite (set_mode_run buf count w ret m Hparse).
  destruct (negb (ret =? 0)); [left; reflexivity |].
  destruct (m >? LTC2990_CONTROL_MODE_MAX); [left; reflexivity |].
  cbv zeta.
  destruct (ltc2990_write_control_trigger _) as [r w2] eqn:Hwct.
  destruct (write_control_trigger_effect _ _ _ Hwct)
    as (_ & _ & r1 & rest & Hlog & _ & Hevs & _).
  cbn [data klog mode] in Hlog.
  apply write_or_err_not_mutex in Hevs.
  destruct (r <? 0); right; cbn [klog].
  - exists (u8 (Z.lor LTC2990_CONTROL_MEASURE_ALL (u32 m))), r1, rest.
    split; [| exact Hevs].
    rewrite Hlog. norm_app. reflexivity.
  - exists (u8 (Z.lor LTC2990_CONTROL_MEASURE_ALL (u32 m))), r1,
      (rest ++ [EvSysfsUpdateGroup
                  (sysfs_group_files ltc2990_group (data w2))
                  (sysfs_update_ret (klog w2))]).
    split.
    + rewrite Hlog at 1. norm_app. reflexivity.
    + rewrite forallb_app, Hevs. reflexivity.
Qed.

(** X9. When the mode stored is in 0-7 before [ltc2990_set_mode], it is
    in 0-7 after it, whatever the text and whatever the chip and sysfs
    answer ([kstrtoul] yields an unsigned number); so the lookup that
    [ltc2990_attrs_visible] makes in the mode table stays inside the
    table for every attribute. *)
Theorem X9_set_mode_keeps_mode_in_table {K : Kernel} :
  forall (buf : string) (count : Z) (w : world),
    (forall ret m, kstrtoul buf 10 = (ret, m) -> 0 <= m) ->
    0 <= mode (data w) <= LTC2990_CONTROL_MODE_MAX ->
    let w' := snd (ltc2990_set_mode buf count w) in
    0 <= mode (data w') <= LTC2990_CONTROL_MODE_MAX
    /\ forall a n, exists umode,
         ltc2990_attrs_visible (data w') a n = Some umode.
Proof.
  intros buf count w Hul Hw w'.
  assert (Hrange : 0 <= mode (data w') <= LTC2990_CONTROL_MODE_MAX)
    by (apply set_mode_mode_in_range; assumption).
  split; [exact Hrange |].
  intros a n. apply attrs_visible_defined; exact Hrange.
Qed.

Lemma X9_set_mode_keeps_mode_in_table_witness :
  0 <= mode (data (snd (ltc2990_set_mode (K := Bench.kernel 0 0 (-5))
                          ("7" ++ LF)%string 2 (Bench.running 0))))
    <= LTC2990_CONTROL_MODE_MAX.
Proof.
  refine (proj1 (X9_set_mode_keeps_mode_in_table (K := Bench.kernel 0 0 (-5))
            ("7" ++ LF)%string 2 (Bench.running 0) _ _)).
  - intros ret m H. injection H as _ <-. discriminate.
  - split; discriminate.
Defined.

(** X10. What [ltc2990_set_mode] stores, [ltc2990_get_mode] shows: once a
    mode in 0-7 is past the range check, also when the chip writes or the
    group update fail afterwards, a read of the mode attribute gives that
    one digit and a line feed, returns 2 and changes nothing. *)
Theorem X10_set_mode_then_get_mode {K : Kernel} :
  forall (buf page : string) (count m : Z) (w : world),
    kstrtoul buf 10 = (0, m) ->
    0 <= m <= LTC2990_CONTROL_MODE_MAX ->
    let w' := snd (ltc2990_set_mode buf count w) in
    ltc2990_get_mode page w'
    = ((2, String (ascii_of_nat (48 + Z.to_nat m)) LF), w').
Proof.
  intros buf page count m w Hparse Hm w'.
  assert (Hmode : mode (data w') = m).
  { subst w'.
    rewrite (set_mode_run buf count w 0 m Hparse). cbn [Z.eqb negb].
    destruct (Z.gtb_spec m LTC2990_CONTROL_MODE_MAX); [lia |].
    cbv zeta.
    rewrite u32_id by (unfold LTC2990_CONTROL_MODE_MAX in Hm; lia).
    destruct (ltc2990_write_control_trigger _) as [r w2] eqn:Hwct.
    destruct (write_control_trigger_effect _ _ _ Hwct) as (Hdata & _).
    cbn [data] in Hdata.
    destruct (r <? 0); cbn [snd data]; rewrite Hdata; reflexivity. }
  unfold ltc2990_get_mode, bind, get_data, pure. rewrite Hmode.
  clear Hmode Hparse. clearbody w'.
  unfold LTC2990_CONTROL_MODE_MAX in Hm.
  assert (H : m = 0 \/ m = 1 \/ m = 2 \/ m = 3
              \/ m = 4 \/ m = 5 \/ m = 6 \/ m = 7) by lia.
  repeat (destruct H as [-> | H]; [reflexivity |]).
  subst m; reflexivity.
Qed.

Lemma X10_set_mode_then_get_mode_witness :
  ltc2990_get_mode ""
    (snd (ltc2990_set_mode (K := Bench.kernel 0 (-5) 0)
            ("4" ++ LF)%string 2 (Bench.running 6)))
  = ((2, ("4" ++ LF)%string),
     snd (ltc2990_set_mode (K := Bench.kernel 0 (-5) 0)
            ("4" ++ LF)%string 2 (Bench.running 6))).
Proof.
  refine (X10_set_mode_then_get_mode (K := Bench.kernel 0 (-5) 0)
            ("4" ++ LF)%string "" 2 4 (Bench.running 6) _ _).
  - reflexivity.
  - split; discriminate.
Defined.

(** ** Attaching the device *)

Section ProbeFacts.

Context {K : Kernel}.

Lemma new_events_app w l evs :
  new_events w {| data := l; klog := klog w ++ evs |} = evs.
Proof.
  unfold new_events; cbn [klog].
  induction (klog w) as [| e k IH]; [reflexivity | exact IH].
Qed.

(** The mode the probe settles on, and whether it warns: the world in
    which it starts the conversion. *)
Lemma probe_run of_node w :
  check_functionality = true ->
  kzalloc_ok (klog w) = true ->
  let cfg :=
    match of_node with
    | None => LTC2990_CONTROL_MODE_DEFAULT
    | Some node =>
        let '(ret, out) := of_property_read_u32 node "mode" in
        if negb (ret =? 0) then LTC2990_CONTROL_MODE_DEFAULT else u32 out
    end in
  let start :=
    if cfg >? LTC2990_CONTROL_MODE_MAX
    then {| data := {| mode := LTC2990_CONTROL_MODE_DEFAULT |};
            klog := klog w
                    ++ [ EvKzalloc true;
                         EvDevWarn
                           ("Warning: Mode %d out of range, defaulting to %d." ++ LF)
                           [s32 cfg; LTC2990_CONTROL_MODE_DEFAULT] ] |}
    else {| data := {| mode := cfg |}; klog := klog w ++ [EvKzalloc true] |} in
  ltc2990_i2c_probe of_node w
  = let '(r, w2) := ltc2990_write_control_trigger start in
    if r <? 0 then (r, w2)
    else
      let dev := hwmon_register_ret (klog w2 ++ [EvMutexInit]) in
      (PTR_ERR_OR_ZERO dev,
       {| data := data w2;
          klog := klog w2
                  ++ [ EvMutexInit;
                       EvHwmonRegister
                         (sysfs_groups_files ltc2990_groups (data w2)) dev ] |}).
Proof.
  intros Hfun Hmem. cbv zeta.
  unfold ltc2990_i2c_probe. rewrite Hfun. cbn [negb].
  unfold bind at 1. unfold devm_kzalloc. rewrite Hmem. cbn [negb].
  unfold bind at 1.
  set (cfg := match of_node with
              | None => LTC2990_CONTROL_MODE_DEFAULT
              | Some node =>
                  let '(ret, out) := of_property_read_u32 node "mode" in
                  if negb (ret =? 0) then LTC2990_CONTROL_MODE_DEFAULT
                  else u32 out
              end).
  set (w0 := {| data := {| mode := 0 |}; klog := klog w ++ [EvKzalloc true] |}).
  assert (Hput :
    match of_node with
    | None => put_mode LTC2990_CONTROL_MODE_DEFAULT
    | Some node =>
        let '(ret, out) := of_property_read_u32 node "mode" in
        if negb (ret =? 0) then put_mode LTC2990_CONTROL_MODE_DEFAULT
        else put_mode (u32 out)
    end w0
    = (tt, {| data := {| mode := cfg |}; klog := klog w ++ [EvKzalloc true] |})).
  { subst cfg. destruct of_node as [node |]; [| reflexivity].
    destruct (of_property_read_u32 node "mode") as [ret out].
    destruct (negb (ret =? 0)); reflexivity. }
  rewrite Hput. clear Hput.
  unfold bind at 1 2. unfold get_data. cbn [data klog mode].
  destruct (cfg >? LTC2990_CONTROL_MODE_MAX).
  - unfold bind at 1 2. unfold dev_warn, emit, put_mode. cbn [data klog].
    rewrite <- app_assoc. cbn [app].
    unfold bind at 1.
    destruct (ltc2990_write_control_trigger _) as [r w2].
    destruct (r <? 0); [reflexivity |].
    unfold bind, mutex_init, emit, devm_hwmon_device_register_with_groups, pure.
    cbn [data klog]. rewrite <- app_assoc. reflexivity.
  - unfold pure at 1. unfold bind at 1.
    destruct (ltc2990_write_control_trigger _) as [r w2].
    destruct (r <? 0); [reflexivity |].
    unfold bind, mutex_init, emit, devm_hwmon_device_register_with_groups, pure.
    cbn [data klog]. rewrite <- app_assoc. reflexivity.
Qed.

End ProbeFacts.

(** X11. Every run of [ltc2990_i2c_probe] has one of five shapes.
    Without the transfers on the adapter: [-ENODEV], nothing done.
    Without memory: [-ENOMEM], nothing sent.  Otherwise, after at most
    one warning, the control byte is written; if that fails its code is
    returned and nothing follows but the error message; else the trigger
    is written; if that fails its code is returned likewise; only when
    both writes were accepted is the lock initialised and the hwmon
    device registered, as the last step, and the result of the
    registration, 0 or its error, is what the probe returns.  The chip is
    not touched again after a failure. *)
Theorem X11_probe_outcomes {K : Kernel} :
  forall (of_node : option device_node) (w : world),
    let '(ret, w') := ltc2990_i2c_probe of_node w in
    let evs := new_events w w' in
    (ret = - ENODEV /\ w' = w)
    \/ (ret = - ENOMEM /\ evs = [EvKzalloc false] /\ data w' = data w)
    \/ exists warn ctl r1,
         (warn = []
          \/ exists args,
               warn = [EvDevWarn
                         ("Warning: Mode %d out of range, defaulting to %d." ++ LF)
                         args])
         /\ ((r1 < 0 /\ ret = r1
              /\ evs = EvKzalloc true
                       :: warn
                       ++ [ EvWriteByte LTC2990_CONTROL ctl r1;
                            EvDevErr ("Error: Failed to set control mode." ++ LF) ])
             \/ exists r2,
                  0 <= r1
                  /\ ((r2 < 0 /\ ret = r2
                       /\ evs = EvKzalloc true
                                :: warn
                                ++ [ EvWriteByte LTC2990_CONTROL ctl r1;
                                     EvWriteByte LTC2990_TRIGGER 0x01 r2;
                                     EvDevErr
                                       ("Error: Failed to start acquisition." ++ LF) ])
                      \/ exists files dev,
                           0 <= r2 /\ ret = PTR_ERR_OR_ZERO dev
                           /\ evs = EvKzalloc true
                                    :: warn
                                    ++ [ EvWriteByte LTC2990_CONTROL ctl r1;
                                         EvWriteByte LTC2990_TRIGGER 0x01 r2;
                                         EvMutexInit;
                                         EvHwmonRegister files dev ])).
Proof.
  intros of_node w.
  destruct check_functionality eqn:Hfun.
  2:{ unfold ltc2990_i2c_probe. rewrite Hfun. cbn [negb]. unfold pure.
      left. split; reflexivity. }
  destruct (kzalloc_ok (klog w)) eqn:Hmem.
  2:{ unfold ltc2990_i2c_probe. rewrite Hfun. cbn [negb].
      unfold bind at 1. unfold devm_kzalloc. rewrite Hmem. cbn [negb].
      unfold pure. right; left.
      split; [reflexivity | split; [apply new_events_app | reflexivity]]. }
  rewrite (probe_run of_node w Hfun Hmem). cbv zeta.
  set (cfg := match of_node with
              | None => LTC2990_CONTROL_MODE_DEFAULT
              | Some node =>
                  let '(ret, out) := of_property_read_u32 node "mode" in
                  if negb (ret =? 0) then LTC2990_CONTROL_MODE_DEFAULT
                  else u32 out
              end).
  destruct (cfg >? LTC2990_CONTROL_MODE_MAX);
    rewrite write_control_trigger_run; cbv zeta; cbn [data klog mode];
    match goal with
    | |- context [ EvWriteByte LTC2990_CONTROL ?c (smbus_write_byte ?l _ _) ] =>
        set (ctl := c); set (r1 := smbus_write_byte l LTC2990_CONTROL ctl)
    end;
    match goal with
    | |- context [ EvWriteByte LTC2990_TRIGGER 1 ?r ] => set (r2 := r)
    end;
    (destruct (r1 <? 0) eqn:E1; cbv beta iota; rewrite ?E1;
     [ apply Z.ltb_lt in E1
     | apply Z.ltb_ge in E1;
       destruct (r2 <? 0) eqn:E2; cbv beta iota; rewrite ?E2;
       cbn [Z.ltb Z.compare data klog];
       [ apply Z.ltb_lt in E2 | apply Z.ltb_ge in E2 ] ]);
    right; right;
    match goal with
    | |- context [ EvDevWarn ?m ?a ] => exists [EvDevWarn m a], ctl, r1
    | |- _ => exists [], ctl, r1
    end;
    (split; [first [left; reflexivity | right; eexists; reflexivity] |]).
  - left. split; [exact E1 | split; [reflexivity |]].
    norm_app. apply new_events_app.
  - right. exists r2. split; [exact E1 |]. left.
    split; [exact E2 | split; [reflexivity |]].
    norm_app. apply new_events_app.
  - right. exists r2. split; [exact E1 |]. right.
    do 2 eexists. split; [exact E2 | split; [reflexivity |]].
    norm_app. apply new_events_app.
  - left. split; [exact E1 | split; [reflexivity |]].
    norm_app. apply new_events_app.
  - right. exists r2. split; [exact E1 |]. left.
    split; [exact E2 | split; [reflexivity |]].
    norm_app. apply new_events_app.
  - right. exists r2. split; [exact E1 |]. right.
    do 2 eexists. split; [exact E2 | split; [reflexivity |]].
    norm_app. apply new_events_app.
Qed.

Section ProbeShape.

Context {K : Kernel}.

Lemma configured_mode_nonneg of_node : 0 <= configured_mode of_node.
Proof.
  unfold configured_mode. destruct of_node as [node |];
    [| unfold LTC2990_CONTROL_MODE_DEFAULT; lia].
  destruct (of_property_read_u32 node "mode") as [ret out].
  destruct (negb (ret =? 0)); [unfold LTC2990_CONTROL_MODE_DEFAULT; lia |].
  unfold u32. apply Z.mod_pos_bound. lia.
Qed.

(** With the transfers and the memory at hand, what the probe leaves
    behind: the mode it settled on, the warning if it had to replace the
    configured one, the control byte of the mode it settled on, and, only
    at the end, the registration with the files of that mode. *)
Lemma probe_shape of_node w :
  check_functionality = true ->
  kzalloc_ok (klog w) = true ->
  let cfg := configured_mode of_node in
  let m := if cfg >? LTC2990_CONTROL_MODE_MAX
           then LTC2990_CONTROL_MODE_DEFAULT else cfg in
  let warn := if cfg >? LTC2990_CONTROL_MODE_MAX
              then [EvDevWarn
                      ("Warning: Mode %d out of range, defaulting to %d." ++ LF)
                      [s32 cfg; LTC2990_CONTROL_MODE_DEFAULT]]
              else [] in
  let '(ret, w') := ltc2990_i2c_probe of_node w in
  data w' = {| mode := m |}
  /\ exists r1 rest tail,
      new_events w w'
      = EvKzalloc true
        :: warn
        ++ EvWriteByte LTC2990_CONTROL
             (u8 (Z.lor LTC2990_CONTROL_MEASURE_ALL m)) r1
           :: rest ++ tail
      /\ control_writes rest = []
      /\ forallb write_or_err rest = true
      /\ (tail = []
          \/ exists dev,
              tail = [ EvMutexInit;
                       EvHwmonRegister
                         (sysfs_groups_files ltc2990_groups {| mode := m |})
                         dev ]
              /\ ret = PTR_ERR_OR_ZERO dev).
Proof.
  intros Hfun Hmem. cbv zeta.
  rewrite (probe_run of_node w Hfun Hmem). cbv zeta.
  fold (configured_mode of_node).
  set (cfg := configured_mode of_node).
  destruct (cfg >? LTC2990_CONTROL_MODE_MAX);
    destruct (ltc2990_write_control_trigger _) as [r w2] eqn:Hwct;
    destruct (write_control_trigger_effect _ _ _ Hwct)
      as (Hdata & _ & r1 & rest & Hlog & Hctl & Hevs & _);
    cbn [data klog mode] in Hdata, Hlog;
    destruct w2 as [d2 l2]; cbn [data klog] in Hdata, Hlog; subst d2 l2;
    destruct (r <? 0); cbn [data klog];
    (split; [reflexivity |]); norm_app.
  - exists r1, rest, []. rewrite app_nil_r.
    split; [| split; [exact Hctl | split; [exact Hevs | left; reflexivity]]].
    apply new_events_app.
  - exists r1, rest. eexists.
    split; [| split; [exact Hctl | split; [exact Hevs |]]].
    + apply new_events_app.
    + right. eexists. split; reflexivity.
  - exists r1, rest, []. rewrite app_nil_r.
    split; [| split; [exact Hctl | split; [exact Hevs | left; reflexivity]]].
    apply new_events_app.
  - exists r1, rest. eexists.
    split; [| split; [exact Hctl | split; [exact Hevs |]]].
    + apply new_events_app.
    + right. eexists. split; reflexivity.
Qed.

Lemma write_or_err_no_warning l :
  forallb write_or_err l = true -> existsb is_warning l = false.
Proof.
  induction l as [| e l IH]; [reflexivity |].
  cbn [forallb existsb]. intros H. apply andb_prop in H.
  destruct H as [He Hl]. rewrite (IH Hl), orb_false_r.
  destruct e; try discriminate He; reflexivity.
Qed.

End ProbeShape.

Section ProbeModes.

Context {K : Kernel}.

(** All the files registered for a mode in 0-7: those of the channels the
    mode table enables, then the three files that are always there. *)
Lemma groups_files_enabled m :
  0 <= m <= LTC2990_CONTROL_MODE_MAX ->
  exists chans,
    enabled_channels m = Some chans
    /\ sysfs_groups_files ltc2990_groups {| mode := m |}
       = Some (files_of_channels chans ltc2990_attrs
               ++ [ ("temp1_input", S_IRUGO); ("in0_input", S_IRUGO);
                    ("mode", Z.lor S_IRUGO S_IWUSR) ]).
Proof.
  unfold LTC2990_CONTROL_MODE_MAX; intros Hm.
  assert (H : m = 0 \/ m = 1 \/ m = 2 \/ m = 3
              \/ m = 4 \/ m = 5 \/ m = 6 \/ m = 7) by lia.
  repeat (destruct H as [-> | H];
          [eexists; split; [reflexivity | vm_compute; reflexivity] |]).
  subst m; eexists; split; [reflexivity | vm_compute; reflexivity].
Qed.

(** The probe with a configured mode in range: no warning, that mode. *)
Lemma probe_in_range of_node w m :
  check_functionality = true ->
  kzalloc_ok (klog w) = true ->
  configured_mode of_node = m ->
  0 <= m <= LTC2990_CONTROL_MODE_MAX ->
  let '(ret, w') := ltc2990_i2c_probe of_node w in
  mode (data w') = m
  /\ existsb is_warning (new_events w w') = false
  /\ exists r1 more,
      new_events w w'
      = EvKzalloc true
        :: EvWriteByte LTC2990_CONTROL (Z.lor LTC2990_CONTROL_MEASURE_ALL m) r1
        :: more
      /\ control_writes more = [].
Proof.
  intros Hfun Hmem Hcfg Hm.
  pose proof (probe_shape of_node w Hfun Hmem) as Hshape. cbv zeta in Hshape.
  rewrite Hcfg in Hshape.
  destruct (Z.gtb_spec m LTC2990_CONTROL_MODE_MAX) as [Hgt | _]; [lia |].
  destruct (ltc2990_i2c_probe of_node w) as [ret w'].
  destruct Hshape as (Hdata & r1 & rest & tail & Hevs & Hctl & Hwe & Htail).
  rewrite (proj1 (control_byte m Hm)) in Hevs. cbn [app] in Hevs.
  split; [rewrite Hdata; reflexivity |].
  assert (Htl : existsb is_warning tail = false /\ control_writes tail = []).
  { destruct Htail as [-> | (dev & -> & _)]; split; reflexivity. }
  split.
  - rewrite Hevs. cbn [existsb is_warning orb].
    rewrite existsb_app, (write_or_err_no_warning rest Hwe), (proj1 Htl).
    reflexivity.
  - exists r1, (rest ++ tail). split; [exact Hevs |].
    rewrite control_writes_app, Hctl, (proj2 Htl). reflexivity.
Qed.

End ProbeModes.

(** X12. Without a device-tree node, or with a node whose "mode" property
    cannot be read, [ltc2990_i2c_probe] takes the default mode 6 and says
    nothing: no warning is logged, and the first thing sent to the chip
    is the control byte 0x1E. *)
Theorem X12_probe_default_mode {K : Kernel} :
  forall (of_node : option device_node) (w : world),
    check_functionality = true ->
    kzalloc_ok (klog w) = true ->
    (of_node = None
     \/ exists node,
         of_node = Some node
         /\ fst (of_property_read_u32 node "mode") <> 0) ->
    let '(ret, w') := ltc2990_i2c_probe of_node w in
    mode (data w') = 6
    /\ existsb is_warning (new_events w w') = false
    /\ exists r1 more,
        new_events w w'
        = EvKzalloc true :: EvWriteByte LTC2990_CONTROL 0x1E r1 :: more
        /\ control_writes more = [].
Proof.
  intros of_node w Hfun Hmem Hnode.
  apply (probe_in_range of_node w 6 Hfun Hmem); [| split; discriminate].
  destruct Hnode as [-> | (node & -> & Hret)]; [reflexivity |].
  unfold configured_mode.
  destruct (of_property_read_u32 node "mode") as [ret out].
  cbn [fst] in Hret.
  destruct (Z.eqb_spec ret 0); [contradiction | reflexivity].
Qed.

Lemma X12_probe_default_mode_witness :
  let '(ret, w') :=
    ltc2990_i2c_probe (K := Bench.kernel 0 0 0) (Some [("range", 3)])
      Bench.boot in
  mode (data w') = 6 /\ existsb is_warning (new_events Bench.boot w') = false.
Proof.
  pose proof (X12_probe_default_mode (K := Bench.kernel 0 0 0)
                (Some [("range", 3)]) Bench.boot eq_refl eq_refl) as H.
  assert (Hnode : Some [("range", 3)] = None
                  \/ exists node : list (string * Z),
                      Some [("range", 3)] = Some node
                      /\ fst (Bench.property node "mode") <> 0).
  { right. exists [("range", 3)]. split; [reflexivity | discriminate]. }
  specialize (H Hnode).
  destruct (ltc2990_i2c_probe _ _) as [ret w'].
  destruct H as (Hmode & Hwarn & _). split; assumption.
Defined.

(** X13. A "mode" property in 0-7 is taken as it is by
    [ltc2990_i2c_probe]: no warning, that mode stored, and the control
    byte sent first is measure-all with that mode. *)
Theorem X13_probe_configured_mode {K : Kernel} :
  forall (node : device_node) (m : Z) (w : world),
    check_functionality = true ->
    kzalloc_ok (klog w) = true ->
    of_property_read_u32 node "mode" = (0, m) ->
    0 <= m <= LTC2990_CONTROL_MODE_MAX ->
    let '(ret, w') := ltc2990_i2c_probe (Some node) w in
    mode (data w') = m
    /\ existsb is_warning (new_events w w') = false
    /\ exists r1 more,
        new_events w w'
        = EvKzalloc true
          :: EvWriteByte LTC2990_CONTROL
               (Z.lor LTC2990_CONTROL_MEASURE_ALL m) r1
          :: more
        /\ control_writes more = [].
Proof.
  intros node m w Hfun Hmem Hprop Hm.
  apply (probe_in_range (Some node) w m Hfun Hmem); [| exact Hm].
  unfold configured_mode. rewrite Hprop. cbn [Z.eqb negb].
  apply u32_id. unfold LTC2990_CONTROL_MODE_MAX in Hm. lia.
Qed.

Lemma X13_probe_configured_mode_witness :
  let '(ret, w') :=
    ltc2990_i2c_probe (K := Bench.kernel 0 0 0) (Some [("mode", 0)])
      Bench.boot in
  mode (data w') = 0 /\ existsb is_warning (new_events Bench.boot w') = false.
Proof.
  assert (Hm : 0 <= 0 <= LTC2990_CONTROL_MODE_MAX) by (split; discriminate).
  pose proof (X13_probe_configured_mode (K := Bench.kernel 0 0 0)
                [("mode", 0)] 0 Bench.boot eq_refl eq_refl eq_refl Hm) as H.
  destruct (ltc2990_i2c_probe _ _) as [ret w'].
  destruct H as (Hmode & Hwarn & _). split; assumption.
Defined.

(** X14. Whatever the device tree says, once [ltc2990_i2c_probe] has its
    memory the mode it leaves in the driver data is in 0-7, the control
    register was written exactly once, with measure-all and that very
    mode, and if the hwmon device was registered it was with the files of
    the channels the mode table enables for that mode, followed by the
    three files that are always there. *)
Theorem X14_probe_mode_in_table {K : Kernel} :
  forall (of_node : option device_node) (w : world),
    check_functionality = true ->
    kzalloc_ok (klog w) = true ->
    let '(ret, w') := ltc2990_i2c_probe of_node w in
    0 <= mode (data w') <= LTC2990_CONTROL_MODE_MAX
    /\ control_writes (new_events w w') = [0x18 + mode (data w')]
    /\ forall files dev,
        In (EvHwmonRegister files dev) (new_events w w') ->
        ret = PTR_ERR_OR_ZERO dev
        /\ exists chans,
            enabled_channels (mode (data w')) = Some chans
            /\ files
               = Some (files_of_channels chans ltc2990_attrs
                       ++ [ ("temp1_input", S_IRUGO); ("in0_input", S_IRUGO);
                            ("mode", Z.lor S_IRUGO S_IWUSR) ]).
Proof.
  intros of_node w Hfun Hmem.
  pose proof (probe_shape of_node w Hfun Hmem) as Hshape. cbv zeta in Hshape.
  pose proof (configured_mode_nonneg of_node) as Hcfg.
  set (cfg := configured_mode of_node) in *.
  set (m := if cfg >? LTC2990_CONTROL_MODE_MAX
            then LTC2990_CONTROL_MODE_DEFAULT else cfg) in *.
  assert (Hm : 0 <= m <= LTC2990_CONTROL_MODE_MAX).
  { subst m. destruct (Z.gtb_spec cfg LTC2990_CONTROL_MODE_MAX);
      [split; discriminate | lia]. }
  set (warn := if cfg >? LTC2990_CONTROL_MODE_MAX then [_] else []) in *.
  assert (Hwarn : control_writes warn = []
                  /\ forall files dev, ~ In (EvHwmonRegister files dev) warn).
  { subst warn. destruct (cfg >? LTC2990_CONTROL_MODE_MAX); split;
      try reflexivity; intros files dev Hin; cbn [In] in Hin;
      repeat (destruct Hin as [Hin | Hin]; [discriminate Hin |]); exact Hin. }
  clearbody warn m. clear cfg Hcfg.
  destruct (ltc2990_i2c_probe of_node w) as [ret w'].
  destruct Hshape as (Hdata & r1 & rest & tail & Hevs & Hctl & Hwe & Htail).
  rewrite Hdata. cbn [mode].
  split; [exact Hm | split].
  - rewrite Hevs. cbn [control_writes].
    rewrite control_writes_app, (proj1 Hwarn). cbn [control_writes app].
    change (LTC2990_CONTROL =? LTC2990_CONTROL) with true.
    rewrite control_writes_app, Hctl.
    rewrite (proj1 (control_byte m Hm)), (proj2 (control_byte m Hm)).
    destruct Htail as [-> | (dev & -> & _)]; reflexivity.
  - intros files dev Hin. rewrite Hevs in Hin.
    destruct Hin as [H | Hin]; [discriminate H |].
    apply in_app_or in Hin. destruct Hin as [Hin | Hin];
      [exfalso; exact (proj2 Hwarn files dev Hin) |].
    destruct Hin as [H | Hin]; [discriminate H |].
    apply in_app_or in Hin. destruct Hin as [Hin | Hin].
    + rewrite forallb_forall in Hwe. specialize (Hwe _ Hin). discriminate Hwe.
    + destruct Htail as [-> | (dev' & -> & Hret)]; [destruct Hin |].
      destruct Hin as [H | [H | []]]; [discriminate H |].
      injection H as <- <-. split; [exact Hret |].
      exact (groups_files_enabled m Hm).
Qed.

Lemma X14_probe_mode_in_table_witness :
  let '(ret, w') :=
    ltc2990_i2c_probe (K := Bench.kernel 0 0 0) (Some [("mode", 4294967295)])
      Bench.boot in
  0 <= mode (data w') <= LTC2990_CONTROL_MODE_MAX
  /\ control_writes (new_events Bench.boot w') = [0x18 + mode (data w')].
Proof.
  pose proof (X14_probe_mode_in_table (K := Bench.kernel 0 0 0)
                (Some [("mode", 4294967295)]) Bench.boot eq_refl eq_refl) as H.
  destruct (ltc2990_i2c_probe _ _) as [ret w'].
  destruct H as (Hmode & Hctl & _). split; assumption.
Defined.

(** ** More on the value codec *)

Section CodecRanges.

Lemma voltage_to_int_low_bits raw :
  ltc2990_voltage_to_int raw = ltc2990_voltage_to_int (raw mod 2 ^ 15).
Proof.
  rewrite !voltage_to_int_unfold.
  rewrite Z.mod_pow2_bits_low by lia.
  replace ((raw mod 2 ^ 15) mod 2 ^ 14) with (raw mod 2 ^ 14); [reflexivity |].
  change (2 ^ 15) with 32768. change (2 ^ 14) with 16384.
  Z.to_euclidean_division_equations; lia.
Qed.

Lemma temp_field_low_bits val :
  Z.land (val mod 2 ^ 13) 0x1FFF = Z.land val 0x1FFF.
Proof.
  change 0x1FFF with (Z.ones 13).
  rewrite !Z.land_ones by lia. apply Z.mod_mod. lia.
Qed.

Lemma temp_range val :
  0 <= Z.shiftr (Z.shiftl (Z.land val 0x1FFF) 3 * 1000) 7 <= 511937.
Proof.
  change 0x1FFF with (Z.ones 13).
  pose proof (land_ones_bound val 13 ltac:(lia)) as Hb.
  change (2 ^ 13) with 8192 in Hb.
  set (f := Z.land val (Z.ones 13)) in *.
  rewrite Z.shiftl_mul_pow2, Z.shiftr_div_pow2 by lia.
  change (2 ^ 3) with 8. change (2 ^ 7) with 128.
  split.
  - apply Z.div_pos; lia.
  - change 511937 with (8191 * 8 * 1000 / 128).
    apply Z.div_le_mono; lia.
Qed.

Lemma scaled_range val k d lo hi :
  0 <= k -> 0 < d ->
  lo = Z.quot (-65536 * k) d -> hi = Z.quot (65532 * k) d ->
  lo <= Z.quot (ltc2990_voltage_to_int val * k) d <= hi.
Proof.
  intros Hk Hd -> ->.
  pose proof (voltage_to_int_range val) as Hv.
  split; apply Z.quot_le_mono; nia.
Qed.

End CodecRanges.

(** X15. [ltc2990_voltage_to_int] looks at bits 0-14 of the word only,
    bit 15 changes nothing; its result is a multiple of 4 between -65536
    and 65532, and dividing it by 4 gives back the 15-bit field it was
    decoded from, so distinct fields decode to distinct values. *)
Theorem X15_voltage_to_int_field :
  forall raw : Z,
    ltc2990_voltage_to_int raw = ltc2990_voltage_to_int (raw mod 2 ^ 15)
    /\ ltc2990_voltage_to_int raw mod 4 = 0
    /\ -65536 <= ltc2990_voltage_to_int raw <= 65532
    /\ (ltc2990_voltage_to_int raw / 4) mod 2 ^ 15 = raw mod 2 ^ 15.
Proof.
  intros raw.
  split; [apply voltage_to_int_low_bits |].
  split; [| split; [apply voltage_to_int_range |]].
  - rewrite voltage_to_int_unfold.
    destruct (Z.testbit raw 14); apply Z.mod_mul; lia.
  - rewrite voltage_to_int_unfold.
    change 15 with (14 + 1). rewrite (mod_pow2_succ raw 14) by lia.
    pose proof (Z.mod_pos_bound raw (2 ^ 14) ltac:(lia)) as Hb.
    change (2 ^ (14 + 1)) with 32768. change (2 ^ 14) with 16384 in *.
    set (f := raw mod 16384) in *.
    destruct (Z.testbit raw 14); rewrite Z.div_mul by lia.
    + symmetry. apply (Z.mod_unique _ _ (-1)); lia.
    + apply Z.mod_small; lia.
Qed.

(** X16. The values [ltc2990_get_value] can store, whatever word the chip
    answers: a temperature is between 0 and 511937 and so never negative,
    a differential reading between -318177 and 318157, the supply between
    -2500 and 7499, a single-ended voltage between -5000 and 4999. *)
Theorem X16_conversion_ranges :
  forall (index val v : Z),
    ltc2990_get_value_conv index val = Some v ->
    (In index [LTC2990_TEMP1; LTC2990_TEMP2; LTC2990_TEMP3] ->
     0 <= v <= 511937)
    /\ (In index [LTC2990_CURR1; LTC2990_CURR2] -> -318177 <= v <= 318157)
    /\ (index = LTC2990_IN0 -> -2500 <= v <= 7499)
    /\ (In index [LTC2990_IN1; LTC2990_IN2; LTC2990_IN3; LTC2990_IN4] ->
        -5000 <= v <= 4999).
Proof.
  intros index val v Hconv.
  split; [| split; [| split]]; intros Hin.
  - rewrite (conv_temp index val Hin) in Hconv. injection Hconv as <-.
    apply temp_range.
  - rewrite (conv_curr index val Hin) in Hconv. injection Hconv as <-.
    apply scaled_range; [lia | lia | reflexivity | reflexivity].
  - subst index. rewrite conv_in0 in Hconv. injection Hconv as <-.
    pose proof (scaled_range val 30518 400000 (-5000) 4999
                  ltac:(lia) ltac:(lia) eq_refl eq_refl).
    lia.
  - rewrite (conv_in index val Hin) in Hconv. injection Hconv as <-.
    apply scaled_range; [lia | lia | reflexivity | reflexivity].
Qed.

Lemma X16_conversion_ranges_witness :
  0 <= 511937 <= 511937.
Proof.
  refine (proj1 (X16_conversion_ranges LTC2990_TEMP2 0x1FFF 511937 _) _).
  - reflexivity.
  - right; left; reflexivity.
Defined.

(** X17. The value stored for a word does not depend on its bit 15, on
    any channel; on the temperature channels it does not depend on bits
    13 and 14 either. *)
Theorem X17_conversion_ignores_high_bits :
  forall (index val : Z),
    ltc2990_get_value_conv index val
    = ltc2990_get_value_conv index (val mod 2 ^ 15)
    /\ (In index [LTC2990_TEMP1; LTC2990_TEMP2; LTC2990_TEMP3] ->
        ltc2990_get_value_conv index val
        = ltc2990_get_value_conv index (val mod 2 ^ 13)).
Proof.
  intros index val. split.
  - unfold ltc2990_get_value_conv.
    rewrite <- (voltage_to_int_low_bits val).
    replace (Z.land (val mod 2 ^ 15) 0x1FFF) with (Z.land val 0x1FFF);
      [reflexivity |].
    change 0x1FFF with (Z.ones 13). rewrite !Z.land_ones by lia.
    change (2 ^ 15) with 32768. change (2 ^ 13) with 8192.
    Z.to_euclidean_division_equations; lia.
  - intros Hin. rewrite !(conv_temp index _ Hin), temp_field_low_bits.
    reflexivity.
Qed.

Lemma X17_conversion_ignores_high_bits_witness :
  ltc2990_get_value_conv LTC2990_TEMP1 0xE190
  = ltc2990_get_value_conv LTC2990_TEMP1 (0xE190 mod 2 ^ 13).
Proof.
  refine (proj2 (X17_conversion_ignores_high_bits LTC2990_TEMP1 0xE190) _).
  left; reflexivity.
Defined.

(** ** Modes, channels and registers *)

Section TableFacts.

Lemma array_get_in_range m ena :
  array_get ltc2990_attrs_ena m = Some ena ->
  0 <= m <= LTC2990_CONTROL_MODE_MAX.
Proof.
  unfold array_get, LTC2990_CONTROL_MODE_MAX.
  destruct (Z.ltb_spec m 0) as [Hneg | Hpos]; [discriminate |].
  intros Hget.
  assert (Hlt : (Z.to_nat m < List.length ltc2990_attrs_ena)%nat)
    by (apply nth_error_Some; congruence).
  cbn [List.length ltc2990_attrs_ena] in Hlt. lia.
Qed.

Lemma array_get_out_of_range m :
  m < 0 \/ LTC2990_CONTROL_MODE_MAX < m ->
  array_get ltc2990_attrs_ena m = None.
Proof.
  unfold array_get, LTC2990_CONTROL_MODE_MAX. intros Hout.
  destruct (Z.ltb_spec m 0) as [Hneg | Hpos]; [reflexivity |].
  apply nth_error_None. cbn [List.length ltc2990_attrs_ena]. lia.
Qed.

End TableFacts.

(** X18. In every mode of the table, the channels it enables together
    with the two that are always there (IN0 and TEMP1) are read from
    pairwise distinct registers: no register is shown under two
    interpretations at the same time. *)
Theorem X18_enabled_channels_distinct_registers :
  forall (m : Z) (chans : list Z),
    enabled_channels m = Some chans ->
    NoDup (map ltc2990_get_value_reg (LTC2990_IN0 :: LTC2990_TEMP1 :: chans))
    /\ Forall (fun c => ltc2990_get_value_reg c <> None) chans.
Proof.
  intros m chans Hena.
  assert (Hm : 0 <= m <= LTC2990_CONTROL_MODE_MAX).
  { unfold enabled_channels in Hena.
    destruct (array_get ltc2990_attrs_ena m) as [ena |] eqn:Hget;
      [| discriminate].
    exact (array_get_in_range m ena Hget). }
  unfold LTC2990_CONTROL_MODE_MAX in Hm.
  assert (H : m = 0 \/ m = 1 \/ m = 2 \/ m = 3
              \/ m = 4 \/ m = 5 \/ m = 6 \/ m = 7) by lia.
  clear Hm.
  repeat (destruct H as [H | H];
          [ subst m; vm_compute in Hena; injection Hena as <-;
            split;
            [ vm_compute;
              repeat (constructor;
                      [cbn [In]; intros Hin;
                       repeat (destruct Hin as [Hin | Hin];
                               [discriminate Hin |]);
                       exact Hin |]);
              constructor
            | repeat (constructor; [discriminate |]); constructor ]
          |]).
  subst m; vm_compute in Hena; injection Hena as <-.
  split;
    [ vm_compute;
      repeat (constructor;
              [cbn [In]; intros Hin;
               repeat (destruct Hin as [Hin | Hin]; [discriminate Hin |]);
               exact Hin |]);
      constructor
    | repeat (constructor; [discriminate |]); constructor ].
Qed.

Lemma X18_enabled_channels_distinct_registers_witness :
  NoDup (map ltc2990_get_value_reg
           [ LTC2990_IN0; LTC2990_TEMP1;
             LTC2990_IN3; LTC2990_IN4; LTC2990_TEMP2 ]).
Proof.
  refine (proj1 (X18_enabled_channels_distinct_registers 3
                   [LTC2990_IN3; LTC2990_IN4; LTC2990_TEMP2] _)).
  reflexivity.
Defined.

(** X19. The mode table has eight entries: the lookup made by
    [ltc2990_attrs_visible] falls outside the table exactly when the
    stored mode is not in 0-7; inside, the file mode it answers is either
    0 or the mode the attribute was declared with, never more. *)
Theorem X19_attrs_visible_bounds :
  forall (d : ltc2990_data) (a : sensor_device_attribute) (n : Z),
    (ltc2990_attrs_visible d a n = None
     <-> (mode d < 0 \/ LTC2990_CONTROL_MODE_MAX < mode d))
    /\ (forall umode,
           ltc2990_attrs_visible d a n = Some umode ->
           umode = 0 \/ umode = attr_mode a).
Proof.
  intros d a n. unfold ltc2990_attrs_visible. split.
  - split.
    + destruct (array_get ltc2990_attrs_ena (mode d)) as [ena |] eqn:Hget;
        [discriminate |].
      intros _.
      destruct (Z.ltb_spec (mode d) 0) as [Hneg | Hpos]; [left; exact Hneg |].
      destruct (Z.ltb_spec LTC2990_CONTROL_MODE_MAX (mode d))
        as [Hgt | Hle]; [right; exact Hgt |].
      pose proof (attrs_visible_defined d a n (conj Hpos Hle)) as [u Hu].
      unfold ltc2990_attrs_visible in Hu. rewrite Hget in Hu. discriminate Hu.
    + intros Hout. rewrite (array_get_out_of_range _ Hout). reflexivity.
  - intros umode.
    destruct (array_get ltc2990_attrs_ena (mode d)) as [ena |];
      [| discriminate].
    intros [= <-].
    destruct (negb (Z.land ena (index a) =? 0)); [right | left]; reflexivity.
Qed.

Lemma X19_attrs_visible_bounds_witness :
  ltc2990_attrs_visible {| mode := 8 |} sensor_dev_attr_in1_input 4 = None.
Proof.
  refine (proj2 (proj1 (X19_attrs_visible_bounds
                          {| mode := 8 |} sensor_dev_attr_in1_input 4)) _).
  right; reflexivity.
Defined.

(** ** Showing a value *)

Section ShowValueFacts.

Context {K : Kernel}.

Lemma s32_idem z : s32 (s32 z) = s32 z.
Proof.
  unfold s32.
  pose proof (Z.mod_pos_bound (z + 2 ^ 31) (2 ^ 32) ltac:(lia)) as Hb.
  replace ((z + 2 ^ 31) mod 2 ^ 32 - 2 ^ 31 + 2 ^ 31)
    with ((z + 2 ^ 31) mod 2 ^ 32) by lia.
  rewrite Z.mod_mod by lia. reflexivity.
Qed.

(** What the second [switch] stores is an [int]. *)
Lemma conv_is_int index val v :
  ltc2990_get_value_conv index val = Some v -> s32 v = v.
Proof.
  unfold ltc2990_get_value_conv.
  repeat match goal with
         | |- context [ if ?b then _ else _ ] => destruct b
         end;
    intros [= <-]; apply s32_idem.
Qed.

(** [ltc2990_show_value] in terms of what [ltc2990_get_value] did. *)
Lemma show_value_run attr buf value w :
  ltc2990_show_value attr buf value w
  = let '((ret, result), w1) := ltc2990_get_value (index attr) value w in
    if ret <? 0 then ((ret, buf), w1)
    else
      let text := (NilZero.string_of_int (Z.to_int (s32 result)) ++ LF)%string in
      ((Z.of_nat (String.length text), text), w1).
Proof.
  unfold ltc2990_show_value, bind.
  destruct (ltc2990_get_value (index attr) value w) as [[ret result] w1].
  destruct (ret <? 0); reflexivity.
Qed.

End ShowValueFacts.

(** X20. [ltc2990_show_value] hands its local [value] to
    [ltc2990_get_value] without initialising it, yet what it returns and
    prints never depends on that content: when the read fails it returns
    the negative code and leaves the page alone, and when the read
    succeeds it prints the converted value in decimal with a line feed
    and returns the length of that text.  Its only transfer is the one
    read of [ltc2990_get_value]. *)
Theorem X20_show_value {K : Kernel} :
  forall (attr : sensor_device_attribute) (buf : string) (value : Z)
         (w : world),
    (forall value',
        ltc2990_show_value attr buf value' w
        = ltc2990_show_value attr buf value w)
    /\ let '((ret, result), w1) := ltc2990_get_value (index attr) value w in
       (ret < 0 -> ltc2990_show_value attr buf value w = ((ret, buf), w1))
       /\ (ret = 0 ->
           let text :=
             (NilZero.string_of_int (Z.to_int result) ++ LF)%string in
           ltc2990_show_value attr buf value w
           = ((Z.of_nat (String.length text), text), w1)).
Proof.
  intros attr buf value w. split.
  - intros value'. rewrite !show_value_run.
    destruct (ltc2990_get_value_reg (index attr)) as [reg |] eqn:Hreg.
    + rewrite !(get_value_mapped (index attr) reg _ w Hreg). cbv zeta.
      destruct (smbus_read_word (klog w) reg <? 0) eqn:Hneg;
        [rewrite Hneg; reflexivity |].
      destruct (get_value_conv_defined (index attr) reg
                  (smbus_read_word (klog w) reg) Hreg) as [v Hv].
      rewrite Hv. reflexivity.
    + rewrite !get_value_default by assumption. reflexivity.
  - rewrite show_value_run.
    destruct (ltc2990_get_value_reg (index attr)) as [reg |] eqn:Hreg.
    + rewrite (get_value_mapped (index attr) reg value w Hreg). cbv zeta.
      destruct (Z.ltb_spec (smbus_read_word (klog w) reg) 0) as [Hneg | Hpos].
      * destruct (Z.ltb_spec (smbus_read_word (klog w) reg) 0); [| lia].
        split; [reflexivity | lia].
      * destruct (ltc2990_get_value_conv (index attr) _) as [v |] eqn:Hv.
        -- cbn [Z.ltb Z.compare]. rewrite (conv_is_int _ _ _ Hv).
           split; [lia | reflexivity].
        -- split; [reflexivity | discriminate].
    + rewrite get_value_default by assumption.
      split; [reflexivity | discriminate].
Qed.

Lemma X20_show_value_witness :
  ltc2990_show_value (K := Bench.kernel 0xFFFF 0 0)
    sensor_dev_attr_curr1_input "" 0 (Bench.running 6)
  = ((4, ("-19" ++ LF)%string),
     {| data := {| mode := 6 |};
        klog := [EvReadWord LTC2990_V1_MSB 0xFFFF] |})
  /\ ltc2990_show_value (K := Bench.kernel (-5) 0 0)
       sensor_dev_attr_curr1_input "page" 0 (Bench.running 6)
     = ((-5, "page"),
        {| data := {| mode := 6 |};
           klog := [EvReadWord LTC2990_V1_MSB (-5)] |}).
Proof.
  split.
  - refine (proj2 (proj2 (X20_show_value (K := Bench.kernel 0xFFFF 0 0)
              sensor_dev_attr_curr1_input "" 0 (Bench.running 6))) _).
    reflexivity.
  - refine (proj1 (proj2 (X20_show_value (K := Bench.kernel (-5) 0 0)
              sensor_dev_attr_curr1_input "page" 0 (Bench.running 6))) _).
    reflexivity.
Defined.

(** ** Scaling *)

Lemma some_inj {A : Type} (x y : A) : Some x = Some y -> x = y.
Proof. congruence. Qed.

(** X21. The conversions keep the order of what was measured: on a
    temperature channel a larger 13-bit field never gives a smaller
    value, and on the voltage and current channels a larger decoded
    reading never gives a smaller value. *)
Theorem X21_conversion_monotone :
  forall (index a b va vb : Z),
    ltc2990_get_value_conv index a = Some va ->
    ltc2990_get_value_conv index b = Some vb ->
    (In index [LTC2990_TEMP1; LTC2990_TEMP2; LTC2990_TEMP3] ->
     Z.land a 0x1FFF <= Z.land b 0x1FFF -> va <= vb)
    /\ (In index [ LTC2990_CURR1; LTC2990_CURR2; LTC2990_IN0; LTC2990_IN1;
                   LTC2990_IN2; LTC2990_IN3; LTC2990_IN4 ] ->
        ltc2990_voltage_to_int a <= ltc2990_voltage_to_int b -> va <= vb).
Proof.
  intros index a b va vb Ha Hb. split; intros Hin Hle.
  - rewrite (conv_temp index a Hin) in Ha.
    rewrite (conv_temp index b Hin) in Hb.
    apply some_inj in Ha, Hb. subst va vb.
    rewrite !Z.shiftl_mul_pow2, !Z.shiftr_div_pow2 by lia.
    apply Z.div_le_mono; lia.
  - cbn [In] in Hin.
    destruct Hin as [Hin | [Hin | [Hin | Hin]]].
    + rewrite (conv_curr index a) in Ha by (cbn [In]; tauto).
      rewrite (conv_curr index b) in Hb by (cbn [In]; tauto).
      apply some_inj in Ha, Hb. subst va vb.
      apply Z.quot_le_mono; lia.
    + rewrite (conv_curr index a) in Ha by (cbn [In]; tauto).
      rewrite (conv_curr index b) in Hb by (cbn [In]; tauto).
      apply some_inj in Ha, Hb. subst va vb.
      apply Z.quot_le_mono; lia.
    + subst index. rewrite conv_in0 in Ha, Hb.
      apply some_inj in Ha, Hb. subst va vb.
      apply Z.add_le_mono_r, Z.quot_le_mono; lia.
    + rewrite (conv_in index a) in Ha by (cbn [In]; tauto).
      rewrite (conv_in index b) in Hb by (cbn [In]; tauto).
      apply some_inj in Ha, Hb. subst va vb.
      apply Z.quot_le_mono; lia.
Qed.

Lemma X21_conversion_monotone_witness : -19 <= 0.
Proof.
  refine (proj2 (X21_conversion_monotone LTC2990_CURR1 0xFFFF 0x8000 (-19) 0
                   _ _) _ _).
  - reflexivity.
  - reflexivity.
  - left; reflexivity.
  - discriminate.
Defined.

(** X22. How far the stored value is from the exact scaling.  A
    temperature is the 13-bit field times 62.5, rounded down.  A
    differential reading is the decoded value times 1942/400 and a
    voltage the decoded value times 30518/400000 (the supply 2500 more),
    cut toward zero: less than one unit off, and never larger in
    magnitude than the exact product. *)
Theorem X22_conversion_rounding :
  forall (index val v : Z),
    ltc2990_get_value_conv index val = Some v ->
    let d := ltc2990_voltage_to_int val in
    (In index [LTC2990_TEMP1; LTC2990_TEMP2; LTC2990_TEMP3] ->
     0 <= Z.land val 0x1FFF * 125 - v * 2 < 2)
    /\ (In index [LTC2990_CURR1; LTC2990_CURR2] ->
        Z.abs (d * 1942 - v * 400) < 400
        /\ Z.abs (v * 400) <= Z.abs (d * 1942))
    /\ (index = LTC2990_IN0 ->
        Z.abs (d * 30518 - (v - 2500) * 400000) < 400000
        /\ Z.abs ((v - 2500) * 400000) <= Z.abs (d * 30518))
    /\ (In index [LTC2990_IN1; LTC2990_IN2; LTC2990_IN3; LTC2990_IN4] ->
        Z.abs (d * 30518 - v * 400000) < 400000
        /\ Z.abs (v * 400000) <= Z.abs (d * 30518)).
Proof.
  intros index val v Hconv d.
  split; [| split; [| split]]; intros Hin.
  - rewrite (conv_temp index val Hin) in Hconv. apply some_inj in Hconv. subst v.
    change 0x1FFF with (Z.ones 13).
    pose proof (land_ones_bound val 13 ltac:(lia)) as Hb.
    set (f := Z.land val (Z.ones 13)) in *.
    rewrite Z.shiftl_mul_pow2, Z.shiftr_div_pow2 by lia.
    change (2 ^ 3) with 8. change (2 ^ 7) with 128.
    Z.to_euclidean_division_equations. lia.
  - rewrite (conv_curr index val Hin) in Hconv. apply some_inj in Hconv. subst v.
    fold d. Z.to_euclidean_division_equations. lia.
  - subst index. rewrite conv_in0 in Hconv. apply some_inj in Hconv. subst v.
    fold d. Z.to_euclidean_division_equations. lia.
  - rewrite (conv_in index val Hin) in Hconv. apply some_inj in Hconv. subst v.
    fold d. Z.to_euclidean_division_equations. lia.
Qed.

Lemma X22_conversion_rounding_witness :
  Z.abs (ltc2990_voltage_to_int 0xFFFF * 1942 - -19 * 400) < 400
  /\ Z.abs (-19 * 400) <= Z.abs (ltc2990_voltage_to_int 0xFFFF * 1942).
Proof.
  refine (proj1 (proj2 (X22_conversion_rounding LTC2990_CURR1 0xFFFF (-19) _))
            _).
  - reflexivity.
  - left; reflexivity.
Defined.
